(** * sess: the session resolution engine

    A shallow embedding of package [session]: the session record model
    ([types.go]), the three port interfaces, the [Manager] that composes
    them, and the test doubles of the package's tests.

    The ports are external collaborators (tmux, tmuxinator, a YAML file).
    Each port method is a function on an abstract world [W], so that a
    port may answer differently every time it is asked, and every call
    the manager makes is recorded, with its answer, in a trace. *)

From Stdlib Require Import ZArith String Ascii List Sorted Permutation
  DecimalString Lia.
From stdpp Require Import base option list sorting gmap strings.

Local Open Scope Z_scope.

(** ** Session records (types.go) *)

(** [type SessionType string]: any string is a value of the type, the
    three constants are the ones the program produces. *)
Definition SessionType := string.
Definition SessionTypeTmux : SessionType := "tmux".
Definition SessionTypeTmuxinator : SessionType := "tmuxinator".
Definition SessionTypeDefault : SessionType := "default".

(** [CreatedAt] is a [time.Time]; it is kept as an instant on the integer
    line, the zero value being [0]. *)
Record Session := mkSession {
  Name : string;
  Type_ : SessionType;
  WindowCount : Z;
  Directory : string;
  Description : string;
  IsActive : bool;
  TmuxinatorProject : string;
  CreatedAt : Z
}.

Record SessionConfig := mkSessionConfig {
  cfgName : string;
  cfgDescription : string;
  cfgDirectory : string;
  cfgTmuxinatorProject : string
}.

#[global] Instance Session_eq_dec : EqDecision Session.
Proof. solve_decision. Defined.
#[global] Instance SessionConfig_eq_dec : EqDecision SessionConfig.
Proof. solve_decision. Defined.

(** [%d] of [fmt.Sprintf] on an [int]. *)
Definition Itoa (n : Z) : string := NilZero.string_of_int (Z.to_int n).

Definition formatWindowCount (count : Z) : string :=
  if bool_decide (count = 1) then "1 window"
  else Itoa count +:+ " windows".

Definition DisplayInfo (s : Session) : string :=
  if bool_decide (Type_ s = SessionTypeTmux) then
    Name s +:+ " (" +:+ formatWindowCount (WindowCount s) +:+ ")"
  else if bool_decide (Type_ s = SessionTypeTmuxinator) then
    Name s +:+ " (tmuxinator)"
  else if bool_decide (Type_ s = SessionTypeDefault) then
    Name s +:+ " (not started)"
  else Name s.

(** ** Go errors *)

(** An [error] is [nil] or a value with a message; [fmt.Errorf] builds an
    [errorString] and, with the verb [%w], a [wrapError] that keeps the
    wrapped error. *)
Inductive GoError :=
| errorString (s : string)
| wrapError (msg : string) (err : GoError).

Definition error := option GoError.

Definition Error (e : GoError) : string :=
  match e with
  | errorString s => s
  | wrapError msg _ => msg
  end.

#[global] Instance GoError_eq_dec : EqDecision GoError.
Proof. solve_decision. Defined.

(** ** Traces of port calls *)

(** One event per call the manager makes on a port: the arguments it
    passed and the answer it received. *)
Inductive Event :=
| EvListSessions (sessions : list Session) (err : error)
| EvSessionExists (name : string) (ok : bool) (err : error)
| EvCreateSession (session : Session) (err : error)
| EvSwitchToSession (name : string) (fromTmux : bool) (err : error)
| EvIsInsideTmux (ok : bool)
| EvSwitchToLastSession (err : error)
| EvDeleteSession (name : string) (err : error)
| EvListProjects (projects : list string) (err : error)
| EvProjectExists (name : string) (ok : bool) (err : error)
| EvStartProject (name : string) (fromTmux : bool) (err : error)
| EvIsInstalled (ok : bool)
| EvLoadDefaultSessions (platform : string) (configs : list SessionConfig)
    (err : error)
| EvGetSessionConfig (name platform : string) (config : option SessionConfig)
    (err : error).

(** The calls that change the outside world: creating, switching to,
    deleting a session, starting a project.  The others only ask. *)
Definition sideEffecting (e : Event) : bool :=
  match e with
  | EvCreateSession _ _ | EvSwitchToSession _ _ _ | EvSwitchToLastSession _
  | EvDeleteSession _ _ | EvStartProject _ _ _ => true
  | _ => false
  end.

(** ** The monad of manager code *)

(** A method either returns or panics (a nil pointer dereference). *)
Inductive Outcome (A : Type) :=
| Returned (a : A)
| Panicked.
Arguments Returned {A} a.
Arguments Panicked {A}.

Definition M (W A : Type) : Type := W → Outcome A * W * list Event.

Definition ret {W A} (a : A) : M W A := λ w, (Returned a, w, []).

Definition bind {W A B} (c : M W A) (f : A → M W B) : M W B := λ w,
  match c w with
  | (Returned a, w1, t1) =>
      match f a w1 with
      | (o, w2, t2) => (o, w2, t1 ++ t2)
      end
  | (Panicked, w1, t1) => (Panicked, w1, t1)
  end.

Notation "x <- c ;; k" := (bind c (λ x, k))
  (at level 20, c at level 99, k at level 200, only parsing).
Notation "' p <- c ;; k" := (bind c (λ p, k))
  (at level 20, p pattern, c at level 99, k at level 200, only parsing).

(** A port call: run the port's method on the world and record it. *)
Definition call {W X} (f : W → X * W) (ev : X → Event) : M W X :=
  λ w, match f w with (x, w1) => (Returned x, w1, [ev x]) end.

(** [*p] for a pointer that may be nil. *)
Definition deref {W A} (p : option A) : M W A :=
  λ w, match p with
       | Some a => (Returned a, w, [])
       | None => (Panicked, w, [])
       end.

Definition outcome {W A} (r : Outcome A * W * list Event) : Outcome A := r.1.1.
Definition trace {W A} (r : Outcome A * W * list Event) : list Event := r.2.

(** ** The port interfaces *)

Module TmuxClient.
Record t (W : Type) := {
  ListSessions : W → (list Session * error) * W;
  SessionExists : string → W → (bool * error) * W;
  CreateSession : Session → W → error * W;
  SwitchToSession : string → bool → W → error * W;
  AttachToSession : string → W → error * W;
  IsInsideTmux : W → bool * W;
  SwitchToLastSession : W → error * W;
  DeleteSession : string → W → error * W;
  ReloadConfig : W → error * W
}.
Arguments ListSessions {W}.
Arguments SessionExists {W}.
Arguments CreateSession {W}.
Arguments SwitchToSession {W}.
Arguments AttachToSession {W}.
Arguments IsInsideTmux {W}.
Arguments SwitchToLastSession {W}.
Arguments DeleteSession {W}.
Arguments ReloadConfig {W}.
End TmuxClient.

Module TmuxinatorClient.
Record t (W : Type) := {
  ListProjects : W → (list string * error) * W;
  ProjectExists : string → W → (bool * error) * W;
  StartProject : string → bool → W → error * W;
  IsInstalled : W → bool * W
}.
Arguments ListProjects {W}.
Arguments ProjectExists {W}.
Arguments StartProject {W}.
Arguments IsInstalled {W}.
End TmuxinatorClient.

Module ConfigLoader.
Record t (W : Type) := {
  LoadDefaultSessions : string → W → (list SessionConfig * error) * W;
  GetSessionConfig : string → string → W → (option SessionConfig * error) * W
}.
Arguments LoadDefaultSessions {W}.
Arguments GetSessionConfig {W}.
End ConfigLoader.

(** ** sort.Slice *)

(** [sort.Slice] promises a permutation of the slice ordered by [less],
    with no promise on the relative order of equal elements.  The model
    is the insertion sort the Go runtime runs on slices of at most twelve
    elements ([insertionSortLessFunc]): element [i] sinks to the left
    while it is less than its left neighbour.  Longer slices go through
    pattern-defeating quicksort, which returns the same slice whenever no
    two elements compare equal.  The prefix already sorted is kept
    reversed, nearest neighbour first. *)
Fixpoint sinkLeft {A} (less : A → A → bool) (x : A) (revPrefix : list A)
  : list A :=
  match revPrefix with
  | [] => [x]
  | y :: rest =>
      if less x y then y :: sinkLeft less x rest else x :: y :: rest
  end.

Definition sort_Slice {A} (less : A → A → bool) (data : list A) : list A :=
  rev (foldl (λ revPrefix x, sinkLeft less x revPrefix) [] data).

(** ** The manager *)

Record Manager (W : Type) := NewManager {
  tmuxClient : TmuxClient.t W;
  tmuxinatorClient : TmuxinatorClient.t W;
  configLoader : ConfigLoader.t W;
  platform : string
}.
Arguments NewManager {W}.
Arguments tmuxClient {W}.
Arguments tmuxinatorClient {W}.
Arguments configLoader {W}.
Arguments platform {W}.

(** [existingNames[name]] on a [map[string]bool]: a missing key reads as
    [false]. *)
Definition hasName (existingNames : gmap string bool) (name : string) : bool :=
  default false (existingNames !! name).

(** The three [Session{...}] literals of the manager; the fields a
    literal leaves out take their zero value. *)
Definition tmuxinatorSession (projectName : string) : Session :=
  {| Name := projectName; Type_ := SessionTypeTmuxinator; WindowCount := 0;
     Directory := ""; Description := ""; IsActive := false;
     TmuxinatorProject := ""; CreatedAt := 0 |}.

Definition defaultSession (config : SessionConfig) : Session :=
  {| Name := cfgName config; Type_ := SessionTypeDefault; WindowCount := 0;
     Directory := cfgDirectory config; Description := cfgDescription config;
     IsActive := false; TmuxinatorProject := ""; CreatedAt := 0 |}.

Definition plainSession (name directory : string) : Session :=
  {| Name := name; Type_ := SessionTypeTmux; WindowCount := 0;
     Directory := directory; Description := ""; IsActive := false;
     TmuxinatorProject := ""; CreatedAt := 0 |}.

Definition nameLess (a b : Session) : bool := String.ltb (Name a) (Name b).

Definition isNil (err : error) : bool :=
  match err with None => true | Some _ => false end.

Section Manager.
Context {W : Type}.
Variable m : Manager W.

(** *** Calls through the injected ports *)

Definition tmuxClient_ListSessions : M W (list Session * error) :=
  call (TmuxClient.ListSessions (tmuxClient m))
       (λ r, EvListSessions r.1 r.2).
Definition tmuxClient_SessionExists (name : string) : M W (bool * error) :=
  call (TmuxClient.SessionExists (tmuxClient m) name)
       (λ r, EvSessionExists name r.1 r.2).
Definition tmuxClient_CreateSession (session : Session) : M W error :=
  call (TmuxClient.CreateSession (tmuxClient m) session)
       (EvCreateSession session).
Definition tmuxClient_SwitchToSession (name : string) (fromTmux : bool)
  : M W error :=
  call (TmuxClient.SwitchToSession (tmuxClient m) name fromTmux)
       (EvSwitchToSession name fromTmux).
Definition tmuxClient_IsInsideTmux : M W bool :=
  call (TmuxClient.IsInsideTmux (tmuxClient m)) EvIsInsideTmux.
Definition tmuxClient_SwitchToLastSession : M W error :=
  call (TmuxClient.SwitchToLastSession (tmuxClient m)) EvSwitchToLastSession.
Definition tmuxClient_DeleteSession (name : string) : M W error :=
  call (TmuxClient.DeleteSession (tmuxClient m) name) (EvDeleteSession name).

Definition tmuxinatorClient_ListProjects : M W (list string * error) :=
  call (TmuxinatorClient.ListProjects (tmuxinatorClient m))
       (λ r, EvListProjects r.1 r.2).
Definition tmuxinatorClient_ProjectExists (name : string) : M W (bool * error) :=
  call (TmuxinatorClient.ProjectExists (tmuxinatorClient m) name)
       (λ r, EvProjectExists name r.1 r.2).
Definition tmuxinatorClient_StartProject (name : string) (fromTmux : bool)
  : M W error :=
  call (TmuxinatorClient.StartProject (tmuxinatorClient m) name fromTmux)
       (EvStartProject name fromTmux).
Definition tmuxinatorClient_IsInstalled : M W bool :=
  call (TmuxinatorClient.IsInstalled (tmuxinatorClient m)) EvIsInstalled.

Definition configLoader_LoadDefaultSessions (platform : string)
  : M W (list SessionConfig * error) :=
  call (ConfigLoader.LoadDefaultSessions (configLoader m) platform)
       (λ r, EvLoadDefaultSessions platform r.1 r.2).
Definition configLoader_GetSessionConfig (name platform : string)
  : M W (option SessionConfig * error) :=
  call (ConfigLoader.GetSessionConfig (configLoader m) name platform)
       (λ r, EvGetSessionConfig name platform r.1 r.2).

(** *** ListAll *)

(** The body of [for _, sess := range sessions]. *)
Definition markName (existingNames : gmap string bool) (sess : Session)
  : gmap string bool :=
  <[Name sess := true]> existingNames.

(** The body of [for _, projectName := range projects], on the pair of
    the slice being built and the names seen so far. *)
Definition addProject (acc : list Session * gmap string bool)
    (projectName : string) : list Session * gmap string bool :=
  let '(sessions, existingNames) := acc in
  if negb (hasName existingNames projectName) then
    (sessions ++ [tmuxinatorSession projectName],
     <[projectName := true]> existingNames)
  else acc.

(** The body of [for _, config := range defaultSessions]. *)
Definition addDefault (acc : list Session * gmap string bool)
    (config : SessionConfig) : list Session * gmap string bool :=
  let '(sessions, existingNames) := acc in
  if negb (hasName existingNames (cfgName config)) then
    (sessions ++ [defaultSession config],
     <[cfgName config := true]> existingNames)
  else acc.

Definition ListAll : M W (list Session * error) :=
  let sessions : list Session := [] in
  '(tmuxSessions, err) <- tmuxClient_ListSessions ;;
  let sessions := if isNil err then sessions ++ tmuxSessions else sessions in
  let existingNames := foldl markName ∅ sessions in
  installed <- tmuxinatorClient_IsInstalled ;;
  acc <- (if installed then
           '(projects, err) <- tmuxinatorClient_ListProjects ;;
           ret (if isNil err
                 then foldl addProject (sessions, existingNames) projects
                 else (sessions, existingNames))
         else ret (sessions, existingNames)) ;;
  '(defaultSessions, err) <- configLoader_LoadDefaultSessions (platform m) ;;
  let acc := if isNil err then foldl addDefault acc defaultSessions else acc in
  ret (sort_Slice nameLess acc.1, None).

(** *** CreateOrSwitch *)

Definition createDefaultSession (config : option SessionConfig) : M W error :=
  c <- deref config ;;
  useProject <- (if bool_decide (cfgTmuxinatorProject c ≠ "")
                then tmuxinatorClient_IsInstalled else ret false) ;;
  if useProject then
    inTmux <- tmuxClient_IsInsideTmux ;;
    tmuxinatorClient_StartProject (cfgTmuxinatorProject c) inTmux
  else
    tmuxClient_CreateSession (plainSession (cfgName c) (cfgDirectory c)).

(** The tmuxinator probe shared by [CreateOrSwitch], [SessionExists] and
    [GetSessionInfo]: [IsInstalled()] and then
    [err == nil && isProject]. *)
Definition isTmuxinatorProject (name : string) : M W bool :=
  installed <- tmuxinatorClient_IsInstalled ;;
  if installed then
    '(isProject, err) <- tmuxinatorClient_ProjectExists name ;;
    ret (isNil err && isProject)
  else ret false.

Definition CreateOrSwitch (name : string) : M W error :=
  '(exists_, err) <- tmuxClient_SessionExists name ;;
  match err with
  | Some e =>
      ret (Some (wrapError ("failed to check if session exists: " +:+ Error e) e))
  | None =>
      if exists_ then
        inTmux <- tmuxClient_IsInsideTmux ;;
        tmuxClient_SwitchToSession name inTmux
      else
        isProject <- isTmuxinatorProject name ;;
        if isProject then
          inTmux <- tmuxClient_IsInsideTmux ;;
          tmuxinatorClient_StartProject name inTmux
        else
          '(config, err) <- configLoader_GetSessionConfig name (platform m) ;;
          if isNil err then createDefaultSession config
          else
            tmuxClient_CreateSession (plainSession name "")
  end.

Definition SwitchToLast : M W error := tmuxClient_SwitchToLastSession.

(** *** SessionExists, GoToSession, DeleteSession *)

Definition SessionExists (name : string) : M W (bool * error) :=
  '(exists_, err) <- tmuxClient_SessionExists name ;;
  if negb (isNil err) then ret (false, err)
  else if exists_ then ret (true, None)
  else
    isProject <- isTmuxinatorProject name ;;
    if isProject then ret (true, None)
    else
      '(_, err) <- configLoader_GetSessionConfig name (platform m) ;;
      if isNil err then ret (true, None) else ret (false, None).

Definition GoToSession (name : string) : M W error :=
  '(exists_, err) <- SessionExists name ;;
  if negb (isNil err) then ret err
  else if negb exists_ then
    ret (Some (errorString ("session '" +:+ name +:+ "' not found")))
  else CreateOrSwitch name.

Definition DeleteSession (name : string) : M W error :=
  tmuxClient_DeleteSession name.

(** *** GetSessionInfo *)

(** The part of [GetSessionInfo] below the live-session block. *)
Definition infoBelowLive (name : string) : M W (string * error) :=
  isProject <- isTmuxinatorProject name ;;
  if isProject then ret ("tmuxinator project", None)
  else
    '(config, err) <- configLoader_GetSessionConfig name (platform m) ;;
    if isNil err then
      c <- deref config ;;
      if bool_decide (cfgDescription c ≠ "")
      then ret ("default: " +:+ cfgDescription c, None)
      else ret ("default (not started)", None)
    else ret ("new session", None).

Definition GetSessionInfo (name : string) : M W (string * error) :=
  '(exists_, err) <- tmuxClient_SessionExists name ;;
  if negb (isNil err) then ret ("", err)
  else if exists_ then
    '(sessions, err) <- tmuxClient_ListSessions ;;
    if negb (isNil err) then ret ("", err)
    else
      match find (λ sess, bool_decide (Name sess = name)) sessions with
      | Some sess => ret (DisplayInfo sess, None)
      | None => infoBelowLive name
      end
  else infoBelowLive name.

End Manager.

(** ** The test doubles *)

Record MockTmuxClient := {
  mock_sessions : list Session;
  mock_sessionExists : bool;
  mock_isInsideTmux : bool;
  mock_createErr : error;
  mock_switchErr : error;
  mock_lastSessionErr : error
}.

Record MockTmuxinatorClient := {
  mock_projects : list string;
  mock_isInstalled : bool;
  mock_projectExists : bool;
  mock_startErr : error
}.

Record MockConfigLoader := {
  mock_configs : list SessionConfig;
  mock_loadErr : error
}.

Section Mocks.
Context {W : Type}.

(** The mock of the source defines neither [DeleteSession] nor
    [ReloadConfig]; they answer [nil] here and no proof below calls
    them. *)
Definition mockTmuxClient (c : MockTmuxClient) : TmuxClient.t W := {|
  TmuxClient.ListSessions := λ w, ((mock_sessions c, None), w);
  TmuxClient.SessionExists := λ name w,
    ((if existsb (λ sess, bool_decide (Name sess = name)) (mock_sessions c)
      then true else mock_sessionExists c, None), w);
  TmuxClient.CreateSession := λ _ w, (mock_createErr c, w);
  TmuxClient.SwitchToSession := λ _ _ w, (mock_switchErr c, w);
  TmuxClient.AttachToSession := λ _ w, (None, w);
  TmuxClient.IsInsideTmux := λ w, (mock_isInsideTmux c, w);
  TmuxClient.SwitchToLastSession := λ w, (mock_lastSessionErr c, w);
  TmuxClient.DeleteSession := λ _ w, (None, w);
  TmuxClient.ReloadConfig := λ w, (None, w)
|}.

Definition mockTmuxinatorClient (c : MockTmuxinatorClient)
  : TmuxinatorClient.t W := {|
  TmuxinatorClient.ListProjects := λ w, ((mock_projects c, None), w);
  TmuxinatorClient.ProjectExists := λ name w,
    ((if existsb (λ proj, bool_decide (proj = name)) (mock_projects c)
      then true else mock_projectExists c, None), w);
  TmuxinatorClient.StartProject := λ _ _ w, (mock_startErr c, w);
  TmuxinatorClient.IsInstalled := λ w, (mock_isInstalled c, w)
|}.

Definition mockConfigLoader (c : MockConfigLoader) : ConfigLoader.t W := {|
  ConfigLoader.LoadDefaultSessions := λ _ w,
    (if isNil (mock_loadErr c) then (mock_configs c, None)
     else ([], mock_loadErr c), w);
  ConfigLoader.GetSessionConfig := λ name _ w,
    (match find (λ sess, bool_decide (cfgName sess = name)) (mock_configs c) with
     | Some sess => (Some sess, None)
     | None => (None, Some (errorString "session not found"))
     end, w)
|}.

Definition createTestManager (tmuxSessions : list Session)
    (tmuxinatorProjects : list string) (defaultSessions : list SessionConfig)
  : Manager W :=
  NewManager
    (mockTmuxClient
       {| mock_sessions := tmuxSessions; mock_sessionExists := false;
          mock_isInsideTmux := false; mock_createErr := None;
          mock_switchErr := None; mock_lastSessionErr := None |})
    (mockTmuxinatorClient
       {| mock_projects := tmuxinatorProjects;
          mock_isInstalled := bool_decide (0 < length tmuxinatorProjects)%nat;
          mock_projectExists := false; mock_startErr := None |})
    (mockConfigLoader
       {| mock_configs := defaultSessions; mock_loadErr := None |})
    "macos".

End Mocks.

(** A live session as the multiplexer adapter reports it. *)
Definition liveSession (name : string) (windows : Z) : Session :=
  {| Name := name; Type_ := SessionTypeTmux; WindowCount := windows;
     Directory := ""; Description := ""; IsActive := true;
     TmuxinatorProject := ""; CreatedAt := 0 |}.

(** ** What a run was offered *)

(** The sources as one run of [ListAll] saw them: a listing counts only
    when it came back without an error. *)
Definition offeredLive (log : list Event) : list Session :=
  flat_map (λ e, match e with EvListSessions ss None => ss | _ => [] end) log.
Definition offeredProjects (log : list Event) : list string :=
  flat_map (λ e, match e with EvListProjects ps None => ps | _ => [] end) log.
Definition offeredDefaults (log : list Event) : list SessionConfig :=
  flat_map (λ e, match e with
                 | EvLoadDefaultSessions _ cs None => cs
                 | _ => []
                 end) log.

(** The accumulation of [ListAll] before the final sort. *)
Definition mergeSources (live : list Session) (projects : list string)
    (defaults : list SessionConfig) : list Session :=
  (foldl addDefault
     (foldl addProject (live, foldl markName ∅ live) projects) defaults).1.

(** ** Vocabulary of the statements *)

(** The order [nameLess] is the strict part of. *)
Definition nameLe (a b : Session) : Prop := String.le (Name a) (Name b).

(** The names map tells exactly which names the slice holds. *)
Definition namesAgree (acc : list Session * gmap string bool) : Prop :=
  ∀ n, hasName acc.2 n = true ↔ n ∈ Name <$> acc.1.

(** An answer that reports the name as absent from its source: the live
    check says no without an error, the tmuxinator probe does not
    confirm, the config lookup fails. *)
Definition reportsAbsent (e : Event) : bool :=
  match e with
  | EvSessionExists _ ok err => isNil err && negb ok
  | EvProjectExists _ ok err => negb (isNil err && ok)
  | EvGetSessionConfig _ _ _ err => negb (isNil err)
  | _ => true
  end.

(** The tmuxinator tier passed over: tmuxinator is not installed, or the
    probe did not answer [true] with a nil error. *)
Inductive launcherMiss (name : string) : list Event → Prop :=
| miss_not_installed :
    launcherMiss name [EvIsInstalled false]
| miss_not_confirmed ok err :
    isNil err && ok = false →
    launcherMiss name [EvIsInstalled true; EvProjectExists name ok err].

(** What [SessionExists] may do, tier by tier. *)
Inductive SessionExists_spec (name platform : string)
  : list Event → Outcome (bool * error) → Prop :=
| exists_check_failed ok e :
    SessionExists_spec name platform
      [EvSessionExists name ok (Some e)]
      (Returned (false, Some e))
| exists_live :
    SessionExists_spec name platform
      [EvSessionExists name true None]
      (Returned (true, None))
| exists_project :
    SessionExists_spec name platform
      [EvSessionExists name false None; EvIsInstalled true;
       EvProjectExists name true None]
      (Returned (true, None))
| exists_default probe config :
    launcherMiss name probe →
    SessionExists_spec name platform
      (EvSessionExists name false None
         :: probe ++ [EvGetSessionConfig name platform config None])
      (Returned (true, None))
| exists_nowhere probe config e :
    launcherMiss name probe →
    SessionExists_spec name platform
      (EvSessionExists name false None
         :: probe ++ [EvGetSessionConfig name platform config (Some e)])
      (Returned (false, None)).

(** How a resolved default entry is materialized. *)
Inductive materialized (c : SessionConfig) : list Event → Outcome error → Prop :=
| by_project inTmux err :
    cfgTmuxinatorProject c ≠ "" →
    materialized c
      [EvIsInstalled true; EvIsInsideTmux inTmux;
       EvStartProject (cfgTmuxinatorProject c) inTmux err]
      (Returned err)
| by_create_no_launcher err :
    cfgTmuxinatorProject c ≠ "" →
    materialized c
      [EvIsInstalled false;
       EvCreateSession
         {| Name := cfgName c; Type_ := SessionTypeTmux; WindowCount := 0;
            Directory := cfgDirectory c; Description := "";
            IsActive := false; TmuxinatorProject := ""; CreatedAt := 0 |} err]
      (Returned err)
| by_create err :
    cfgTmuxinatorProject c = "" →
    materialized c
      [EvCreateSession
         {| Name := cfgName c; Type_ := SessionTypeTmux; WindowCount := 0;
            Directory := cfgDirectory c; Description := "";
            IsActive := false; TmuxinatorProject := ""; CreatedAt := 0 |} err]
      (Returned err).

(** What [GetSessionInfo] does below the live tier. *)
Inductive infoBelowLive_spec (name platform : string)
  : list Event → Outcome (string * error) → Prop :=
| info_project :
    infoBelowLive_spec name platform
      [EvIsInstalled true; EvProjectExists name true None]
      (Returned ("tmuxinator project", None))
| info_default_described probe c :
    launcherMiss name probe → cfgDescription c ≠ "" →
    infoBelowLive_spec name platform
      (probe ++ [EvGetSessionConfig name platform (Some c) None])
      (Returned ("default: " +:+ cfgDescription c, None))
| info_default_plain probe c :
    launcherMiss name probe → cfgDescription c = "" →
    infoBelowLive_spec name platform
      (probe ++ [EvGetSessionConfig name platform (Some c) None])
      (Returned ("default (not started)", None))
| info_new_session probe config e :
    launcherMiss name probe →
    infoBelowLive_spec name platform
      (probe ++ [EvGetSessionConfig name platform config (Some e)])
      (Returned ("new session", None)).

(** ** Vocabulary of the further statements *)

(** The error a side-effecting call answered with. *)
Definition eventError (e : Event) : error :=
  match e with
  | EvCreateSession _ err | EvSwitchToSession _ _ err
  | EvSwitchToLastSession err | EvDeleteSession _ err
  | EvStartProject _ _ err => err
  | _ => None
  end.

(** Ports whose existence answers do not depend on the moment they are
    asked. *)
Definition steadyProbes {W : Type} (m : Manager W) : Prop :=
  (∀ n w w', (TmuxClient.SessionExists (tmuxClient m) n w).1 =
             (TmuxClient.SessionExists (tmuxClient m) n w').1) ∧
  (∀ w w', (TmuxinatorClient.IsInstalled (tmuxinatorClient m) w).1 =
           (TmuxinatorClient.IsInstalled (tmuxinatorClient m) w').1) ∧
  (∀ n w w', (TmuxinatorClient.ProjectExists (tmuxinatorClient m) n w).1 =
             (TmuxinatorClient.ProjectExists (tmuxinatorClient m) n w').1) ∧
  (∀ n p w w', (ConfigLoader.GetSessionConfig (configLoader m) n p w).1 =
               (ConfigLoader.GetSessionConfig (configLoader m) n p w').1).

(** A multiplexer that cannot be reached: every call fails with [e]. *)
Definition unreachableTmuxClient {W : Type} (e : GoError) : TmuxClient.t W := {|
  TmuxClient.ListSessions := λ w, (([], Some e), w);
  TmuxClient.SessionExists := λ _ w, ((false, Some e), w);
  TmuxClient.CreateSession := λ _ w, (Some e, w);
  TmuxClient.SwitchToSession := λ _ _ w, (Some e, w);
  TmuxClient.AttachToSession := λ _ w, (Some e, w);
  TmuxClient.IsInsideTmux := λ w, (false, w);
  TmuxClient.SwitchToLastSession := λ w, (Some e, w);
  TmuxClient.DeleteSession := λ _ w, (Some e, w);
  TmuxClient.ReloadConfig := λ w, (Some e, w)
|}.

(** ** The picker lines (types.go, main.go) *)

Definition Icon (s : Session) : string :=
  if bool_decide (Type_ s = SessionTypeTmux) then "●"
  else if bool_decide (Type_ s = SessionTypeTmuxinator) then "⚙"
  else if bool_decide (Type_ s = SessionTypeDefault) then "○"
  else " ".

(** [fmt.Sprintf("%s %s", sess.Icon(), sess.DisplayInfo())], the line
    both the picker and [sess list] show for a session. *)
Definition displayText (sess : Session) : string :=
  Icon sess +:+ " " +:+ DisplayInfo sess.

(** The loop of [showInteractiveList] that fills the options handed to
    the picker and the map from a line back to a session name, and the
    option appended after it. *)
Definition addOption (acc : list string * gmap string string) (sess : Session)
  : list string * gmap string string :=
  let '(options, sessionMap) := acc in
  (options ++ [displayText sess], <[displayText sess := Name sess]> sessionMap).

Definition pickerOptions (sessions : list Session)
  : list string * gmap string string :=
  let '(options, sessionMap) := foldl addOption ([], ∅) sessions in
  (options ++ ["+ Create New Session"], sessionMap).

(** [sessionMap[choice]]: a missing key reads as the empty string. *)
Definition sessionMap_get (sessionMap : gmap string string) (choice : string)
  : string :=
  default "" (sessionMap !! choice).

(** ** Go's strings and strconv *)

(** [strings.HasPrefix(s, prefix)]. *)
Fixpoint strings_HasPrefix (s prefix : string) {struct prefix} : bool :=
  match prefix, s with
  | EmptyString, _ => true
  | String a prefix', String b s' =>
      Ascii.eqb a b && strings_HasPrefix s' prefix'
  | String _ _, EmptyString => false
  end.

(** [s[n:]], for [n] within the string. *)
Fixpoint string_drop (n : nat) (s : string) : string :=
  match n, s with
  | S k, String _ rest => string_drop k rest
  | _, _ => s
  end.

(** [strings.Replace(s, old, new, 1)]: the first occurrence of [old] in
    [s] gives way to [new]; an empty [old] matches at the start. *)
Fixpoint strings_Replace1 (s old new : string) : string :=
  if strings_HasPrefix s old then new +:+ string_drop (String.length old) s
  else match s with
       | String c rest => String c (strings_Replace1 rest old new)
       | EmptyString => EmptyString
       end.

(** ** The operating system under the adapters *)

(** An [exec.Cmd]: the program with its arguments, and whether the
    standard streams of the process are handed to it. *)
Record Cmd := {
  cmdArgs : list string;
  cmdStdio : bool
}.

(** [exec.Command(name, arg...)], and the same with
    [cmd.Stdin, cmd.Stdout, cmd.Stderr = os.Stdin, os.Stdout, os.Stderr]. *)
Definition exec_Command (args : list string) : Cmd :=
  {| cmdArgs := args; cmdStdio := false |}.
Definition exec_CommandStdio (args : list string) : Cmd :=
  {| cmdArgs := args; cmdStdio := true |}.

(** What the adapters ask of the outside: processes, the environment,
    the file system, the clock, standard output; and the library
    functions whose code is not part of the program. *)
Record OS (W : Type) := {
  exec_Run : Cmd → W → error * W;
  exec_CombinedOutput : Cmd → W → (string * error) * W;
  exec_LookPath : string → W → (string * error) * W;
  os_Getenv : string → W → string * W;
  os_ExpandEnv : string → W → string * W;
  os_ReadFile : string → W → (string * error) * W;
  os_UserHomeDir : W → (string * error) * W;
  time_Now : W → Z * W;
  fmt_Printf : string → W → unit * W;
  runtime_GOOS : string;
  filepath_Join : list string → string;
  yaml_Unmarshal : string → list SessionConfig * error;
  strconv_Quote : string → string
}.
Arguments exec_Run {W}.
Arguments exec_CombinedOutput {W}.
Arguments exec_LookPath {W}.
Arguments os_Getenv {W}.
Arguments os_ExpandEnv {W}.
Arguments os_ReadFile {W}.
Arguments os_UserHomeDir {W}.
Arguments time_Now {W}.
Arguments fmt_Printf {W}.
Arguments runtime_GOOS {W}.
Arguments filepath_Join {W}.
Arguments yaml_Unmarshal {W}.
Arguments strconv_Quote {W}.

(** One entry per call an adapter makes on the outside, with its
    answer. *)
Inductive Syscall :=
| SysRun (cmd : Cmd) (err : error)
| SysCombinedOutput (cmd : Cmd) (output : string) (err : error)
| SysLookPath (file : string) (path : string) (err : error)
| SysGetenv (key value : string)
| SysExpandEnv (text value : string)
| SysReadFile (path data : string) (err : error)
| SysUserHomeDir (home : string) (err : error)
| SysNow (now : Z)
| SysPrintf (text : string).

(** Adapter code: a function of the world that also records its calls. *)
Definition IO (W A : Type) : Type := W → A * W * list Syscall.

Definition io_ret {W A} (a : A) : IO W A := λ w, (a, w, []).

Definition io_bind {W A B} (c : IO W A) (f : A → IO W B) : IO W B := λ w,
  match c w with
  | (a, w1, t1) =>
      match f a w1 with
      | (b, w2, t2) => (b, w2, t1 ++ t2)
      end
  end.

Definition syscall {W X} (f : W → X * W) (ev : X → Syscall) : IO W X :=
  λ w, match f w with (x, w1) => (x, w1, [ev x]) end.

Definition result {W A} (r : A * W * list Syscall) : A := r.1.1.
Definition syscalls {W A} (r : A * W * list Syscall) : list Syscall := r.2.

Declare Scope io_scope.
Notation "x <- c ;; k" := (io_bind c (λ x, k))
  (at level 20, c at level 99, k at level 200, only parsing) : io_scope.
Notation "' p <- c ;; k" := (io_bind c (λ p, k))
  (at level 20, p pattern, c at level 99, k at level 200, only parsing)
  : io_scope.

Section Adapters.
Context {W : Type}.
Variable os : OS W.
Local Open Scope io_scope.

Definition run (cmd : Cmd) : IO W error :=
  syscall (exec_Run os cmd) (SysRun cmd).
Definition combinedOutput (cmd : Cmd) : IO W (string * error) :=
  syscall (exec_CombinedOutput os cmd) (λ r, SysCombinedOutput cmd r.1 r.2).
Definition lookPath (file : string) : IO W (string * error) :=
  syscall (exec_LookPath os file) (λ r, SysLookPath file r.1 r.2).
Definition getenv (key : string) : IO W string :=
  syscall (os_Getenv os key) (SysGetenv key).

Definition expandEnv (text : string) : IO W string :=
  syscall (os_ExpandEnv os text) (SysExpandEnv text).
Definition readFile (path : string) : IO W (string * error) :=
  syscall (os_ReadFile os path) (λ r, SysReadFile path r.1 r.2).
Definition userHomeDir : IO W (string * error) :=
  syscall (os_UserHomeDir os) (λ r, SysUserHomeDir r.1 r.2).
Definition now : IO W Z :=
  syscall (time_Now os) SysNow.
Definition printf (text : string) : IO W unit :=
  syscall (fmt_Printf os text) (λ _, SysPrintf text).

(** *** The config loader (config/loader.go) *)

Record Loader := {
  configDir : string
}.

Definition NewLoader : IO W Loader :=
  '(home, err) <- userHomeDir ;;
  let home := if isNil err then home else "." in
  let configDir := filepath_Join os [home; ".config"; "sess"] in
  xdgConfig <- getenv "XDG_CONFIG_HOME" ;;
  let configDir := if bool_decide (xdgConfig ≠ "")
                   then filepath_Join os [xdgConfig; "sess"]
                   else configDir in
  io_ret {| configDir := configDir |}.

(** The body of [for i := range config.Defaults]. *)
Definition expandHome (home : string) (c : SessionConfig) : SessionConfig :=
  if strings_HasPrefix (cfgDirectory c) "~" then
    {| cfgName := cfgName c; cfgDescription := cfgDescription c;
       cfgDirectory := strings_Replace1 (cfgDirectory c) "~" home;
       cfgTmuxinatorProject := cfgTmuxinatorProject c |}
  else c.

Definition Loader_LoadDefaultSessions (l : Loader) (platform : string)
  : IO W (list SessionConfig * error) :=
  let filename := "sessions-" +:+ platform +:+ ".yml" in
  let configPath := filepath_Join os [configDir l; filename] in
  '(data, err) <- readFile configPath ;;
  match err with
  | Some e =>
      io_ret ([], Some (wrapError ("failed to read config file " +:+ configPath
                                   +:+ ": " +:+ Error e) e))
  | None =>
      match yaml_Unmarshal os data with
      | (_, Some e) =>
          io_ret ([], Some (wrapError ("failed to parse YAML: " +:+ Error e) e))
      | (defaults, None) =>
          '(home, _) <- userHomeDir ;;
          io_ret (expandHome home <$> defaults, None)
      end
  end.

Definition Loader_GetSessionConfig (l : Loader) (name platform : string)
  : IO W (option SessionConfig * error) :=
  '(sessions, err) <- Loader_LoadDefaultSessions l platform ;;
  if negb (isNil err) then io_ret (None, err)
  else
    match find (λ sess, bool_decide (cfgName sess = name)) sessions with
    | Some sess => io_ret (Some sess, None)
    | None =>
        io_ret (None, Some (errorString ("session " +:+ strconv_Quote os name
                                         +:+ " not found in config")))
    end.

(** The loader as the config port of the manager. *)
Definition Loader_port (l : Loader) : ConfigLoader.t W := {|
  ConfigLoader.LoadDefaultSessions := λ platform w,
    let r := Loader_LoadDefaultSessions l platform w in (r.1.1, r.1.2);
  ConfigLoader.GetSessionConfig := λ name platform w,
    let r := Loader_GetSessionConfig l name platform w in (r.1.1, r.1.2)
|}.

End Adapters.

(** ** A system for examples *)

(** A fixed system: the name of the operating system, an environment,
    the programs on the path, the commands that fail, what commands
    print, the files, the home directory and the result of parsing a
    file. *)
Record FakeSystem := {
  fake_goos : string;
  fake_env : string → string;
  fake_onPath : string → bool;
  fake_fails : list string → bool;
  fake_output : list string → string;
  fake_files : string → option string;
  fake_home : option string;
  fake_yaml : string → list SessionConfig * error
}.

Definition exitStatus1 : GoError := errorString "exit status 1".

Definition fakeOS (f : FakeSystem) : OS () := {|
  exec_Run := λ cmd w,
    (if fake_fails f (cmdArgs cmd) then Some exitStatus1 else None, w);
  exec_CombinedOutput := λ cmd w,
    ((fake_output f (cmdArgs cmd),
      if fake_fails f (cmdArgs cmd) then Some exitStatus1 else None), w);
  exec_LookPath := λ file w,
    (if fake_onPath f file then ("/usr/bin/" +:+ file, None)
     else ("", Some (errorString "executable file not found in $PATH")), w);
  os_Getenv := λ key w, (fake_env f key, w);
  os_ExpandEnv := λ text w, (text, w);
  os_ReadFile := λ path w,
    (match fake_files f path with
     | Some data => (data, None)
     | None => ("", Some (errorString "no such file or directory"))
     end, w);
  os_UserHomeDir := λ w,
    (match fake_home f with
     | Some home => (home, None)
     | None => ("", Some (errorString "$HOME is not defined"))
     end, w);
  time_Now := λ w, (0, w);
  fmt_Printf := λ _ w, ((), w);
  runtime_GOOS := fake_goos f;
  filepath_Join := λ parts, foldr (λ part path,
                     if bool_decide (path = "") then part
                     else part +:+ "/" +:+ path) "" parts;
  yaml_Unmarshal := fake_yaml f;
  strconv_Quote := λ s, "`" +:+ s +:+ "`"
|}.

(** A machine with one config file holding one entry. *)
Definition deskSystem : FakeSystem := {|
  fake_goos := "darwin";
  fake_env := λ _, "";
  fake_onPath := λ _, true;
  fake_fails := λ _, false;
  fake_output := λ _, "";
  fake_files := λ path,
    if bool_decide (path = "/home/u/.config/sess/sessions-macos.yml")
    then Some "defaults: ..." else None;
  fake_home := Some "/home/u";
  fake_yaml := λ _,
    ([{| cfgName := "notes"; cfgDescription := "Notes";
         cfgDirectory := "~/notes"; cfgTmuxinatorProject := "" |}], None)
|}.

(** ** Go's strings and strconv, continued *)

(** The ASCII spaces: tab, newline, vertical tab, form feed, carriage
    return, space. *)
Definition isAsciiSpace (c : ascii) : bool :=
  let b := nat_of_ascii c in ((9 <=? b) && (b <=? 13) || (b =? 32))%nat.

(** [unicode.IsSpace] on the rune that starts [s]: the number of bytes of
    the rune when it is a space, and 0 otherwise.  The spaces are the
    ASCII ones, U+0085, U+00A0, U+1680, U+2000 to U+200A, U+2028, U+2029,
    U+202F, U+205F and U+3000, in their UTF-8 encodings.  A byte that
    starts one of these encodings is never inside another rune, so the
    test does not depend on how the bytes before it decode. *)
Definition spaceWidth (s : string) : nat :=
  match s with
  | EmptyString => 0
  | String c rest =>
      let b0 := nat_of_ascii c in
      if isAsciiSpace c then 1%nat
      else
        match rest with
        | EmptyString => 0
        | String c1 rest1 =>
            let b1 := nat_of_ascii c1 in
            if (b0 =? 0xC2)%nat then
              if ((b1 =? 0x85) || (b1 =? 0xA0))%nat then 2%nat else 0%nat
            else
              match rest1 with
              | EmptyString => 0
              | String c2 _ =>
                  let b2 := nat_of_ascii c2 in
                  if ((b0 =? 0xE1) && (b1 =? 0x9A) && (b2 =? 0x80))%nat
                  then 3%nat
                  else if ((b0 =? 0xE2) && (b1 =? 0x80) &&
                           ((0x80 <=? b2) && (b2 <=? 0x8A) || (b2 =? 0xA8)
                            || (b2 =? 0xA9) || (b2 =? 0xAF)))%nat
                  then 3%nat
                  else if ((b0 =? 0xE2) && (b1 =? 0x81) && (b2 =? 0x9F))%nat
                  then 3%nat
                  else if ((b0 =? 0xE3) && (b1 =? 0x80) && (b2 =? 0x80))%nat
                  then 3%nat
                  else 0%nat
              end
        end
  end%nat.

(** The bytes of space the string still has to pass at its first byte:
    the rest of a rune entered before, or the width of a rune that
    starts here. *)
Definition spaceAhead (skip : nat) (s : string) : nat :=
  match skip with
  | S _ => skip
  | O => spaceWidth s
  end.

(** [strings.Fields(s)]: the maximal runs of bytes outside spaces.  The
    boolean tells whether the first field of the list starts at the
    first byte of the string. *)
Fixpoint fieldsFrom (skip : nat) (s : string) : bool * list string :=
  match s with
  | EmptyString => (false, [])
  | String c rest =>
      match spaceAhead skip s with
      | S k => (false, (fieldsFrom k rest).2)
      | O =>
          match fieldsFrom 0 rest with
          | (true, field :: fields) => (true, String c field :: fields)
          | (_, fields) => (true, String c EmptyString :: fields)
          end
      end
  end.

Definition strings_Fields (s : string) : list string := (fieldsFrom 0 s).2.

(** [strings.TrimSpace(s)]: the spaces at the start go, then those at
    the end. *)
Fixpoint trimLeftSpace (skip : nat) (s : string) : string :=
  match s with
  | EmptyString => EmptyString
  | String c rest =>
      match spaceAhead skip s with
      | S k => trimLeftSpace k rest
      | O => s
      end
  end.

Fixpoint allSpace (skip : nat) (s : string) : bool :=
  match s with
  | EmptyString => true
  | String c rest =>
      match spaceAhead skip s with
      | S k => allSpace k rest
      | O => false
      end
  end.

Fixpoint trimRightSpace (s : string) : string :=
  match s with
  | EmptyString => EmptyString
  | String c rest =>
      if allSpace 0 s then EmptyString else String c (trimRightSpace rest)
  end.

Definition strings_TrimSpace (s : string) : string :=
  trimRightSpace (trimLeftSpace 0 s).

(** [strings.Split(s, sep)] for a separator of one byte: the pieces
    between the separators, one more than there are separators. *)
Fixpoint strings_Split (s : string) (sep : ascii) : list string :=
  match s with
  | EmptyString => [EmptyString]
  | String c rest =>
      if Ascii.eqb c sep then EmptyString :: strings_Split rest sep
      else match strings_Split rest sep with
           | piece :: pieces => String c piece :: pieces
           | [] => [String c EmptyString]
           end
  end.

(** [strconv.Atoi(s)] where [int] has 64 bits: an optional sign and at
    least one decimal digit, nothing else, and a value that fits;
    [None] stands for the error. *)
Definition digitValue (c : ascii) : option Z :=
  let b := nat_of_ascii c in
  if ((48 <=? b) && (b <=? 57))%nat then Some (Z.of_nat (b - 48)) else None.

Fixpoint parseDigits (acc : Z) (s : string) : option Z :=
  match s with
  | EmptyString => Some acc
  | String c rest =>
      match digitValue c with
      | Some d => parseDigits (acc * 10 + d) rest
      | None => None
      end
  end.

Definition strconv_Atoi (s : string) : option Z :=
  match s with
  | EmptyString => None
  | String c rest =>
      let '(neg, digits) :=
        if Ascii.eqb c "-" then (true, rest)
        else if Ascii.eqb c "+" then (false, rest)
        else (false, s) in
      match digits with
      | EmptyString => None
      | _ =>
          match parseDigits 0 digits with
          | Some n =>
              let v := if neg then - n else n in
              if (- 2 ^ 63 <=? v) && (v <=? 2 ^ 63 - 1) then Some v else None
          | None => None
          end
      end
  end.

(** ** The adapters of tmux and tmuxinator *)

(** What [ReloadConfig] does for a session whose reload succeeds. *)
Definition sourceFile (configPath : string) (sess : Session) : Cmd :=
  exec_Command ["tmux"; "source-file"; "-t"; Name sess; configPath].
Definition reloaded (configPath : string) (sess : Session) : list Syscall :=
  [SysRun (sourceFile configPath sess) None;
   SysPrintf ("  ✓ Reloaded session: " +:+ Name sess +:+ String "010" "")].

Section TmuxAdapters.
Context {W : Type}.
Variable os : OS W.
Local Open Scope io_scope.

(** *** The tmux client (tmux/client.go) *)

(** The record the loop of [ListSessions] appends. *)
Definition activeSession (name : string) (windowCount createdAt : Z) : Session :=
  {| Name := name; Type_ := SessionTypeTmux; WindowCount := windowCount;
     Directory := ""; Description := ""; IsActive := true;
     TmuxinatorProject := ""; CreatedAt := createdAt |}.

(** The body of [for _, line := range lines], for the lines left. *)
Fixpoint parseSessionLines (lines : list string) (sessions : list Session)
  : IO W (list Session) :=
  match lines with
  | [] => io_ret sessions
  | line :: lines' =>
      if bool_decide (line = "") then parseSessionLines lines' sessions
      else
        match strings_Split line ":" with
        | [name; count] =>
            let windowCount := default 0 (strconv_Atoi count) in
            createdAt <- now os ;;
            parseSessionLines lines'
              (sessions ++ [activeSession name windowCount createdAt])
        | _ => parseSessionLines lines' sessions
        end
  end.

Definition Client_ListSessions : IO W (list Session * error) :=
  '(output, err) <- combinedOutput os
      (exec_Command ["tmux"; "list-sessions"; "-F";
                     "#{session_name}:#{session_windows}"]) ;;
  if negb (isNil err) then io_ret ([], None)
  else
    let lines := strings_Split (strings_TrimSpace output) "010" in
    sessions <- parseSessionLines lines [] ;;
    io_ret (sessions, None).

Definition Client_SessionExists (name : string) : IO W (bool * error) :=
  err <- run os (exec_Command ["tmux"; "has-session"; "-t"; name]) ;;
  if negb (isNil err) then io_ret (false, None) else io_ret (true, None).

Definition Client_IsInsideTmux : IO W bool :=
  tmux <- getenv os "TMUX" ;;
  io_ret (bool_decide (tmux ≠ "")).

Definition Client_SwitchToSession (name : string) (fromTmux : bool)
  : IO W error :=
  let cmd := if fromTmux
             then exec_Command ["tmux"; "switch-client"; "-t"; name]
             else exec_CommandStdio ["tmux"; "attach-session"; "-t"; name] in
  run os cmd.

Definition Client_AttachToSession (name : string) : IO W error :=
  run os (exec_CommandStdio ["tmux"; "attach-session"; "-t"; name]).

Definition Client_CreateSession (sess : Session) : IO W error :=
  inTmux <- Client_IsInsideTmux ;;
  if inTmux then
    let cmd := if bool_decide (Directory sess ≠ "")
               then exec_Command ["tmux"; "new-session"; "-d"; "-s"; Name sess;
                                  "-c"; Directory sess]
               else exec_Command ["tmux"; "new-session"; "-d"; "-s"; Name sess] in
    err <- run os cmd ;;
    match err with
    | Some e =>
        io_ret (Some (wrapError ("failed to create session: " +:+ Error e) e))
    | None => Client_SwitchToSession (Name sess) true
    end
  else
    let cmd := if bool_decide (Directory sess ≠ "")
               then exec_CommandStdio ["tmux"; "new-session"; "-s"; Name sess;
                                       "-c"; Directory sess]
               else exec_CommandStdio ["tmux"; "new-session"; "-s"; Name sess] in
    run os cmd.

Definition Client_SwitchToLastSession : IO W error :=
  inTmux <- Client_IsInsideTmux ;;
  if negb inTmux then io_ret (Some (errorString "not in a tmux session"))
  else run os (exec_Command ["tmux"; "switch-client"; "-l"]).

Definition Client_DeleteSession (name : string) : IO W error :=
  '(exists_, err) <- Client_SessionExists name ;;
  if negb (isNil err) then io_ret err
  else if negb exists_ then
    io_ret (Some (errorString ("session '" +:+ name +:+ "' does not exist")))
  else
    err <- run os (exec_Command ["tmux"; "kill-session"; "-t"; name]) ;;
    match err with
    | Some e =>
        io_ret (Some (wrapError ("failed to delete session: " +:+ Error e) e))
    | None => io_ret None
    end.

(** The body of [for _, sess := range sessions] of [ReloadConfig]. *)
Fixpoint reloadSessions (configPath : string) (sessions : list Session)
  : IO W error :=
  match sessions with
  | [] => io_ret None
  | sess :: sessions' =>
      err <- run os (exec_Command ["tmux"; "source-file"; "-t"; Name sess;
                                   configPath]) ;;
      match err with
      | Some e =>
          io_ret (Some (wrapError ("failed to reload config for session "
                                   +:+ Name sess +:+ ": " +:+ Error e) e))
      | None =>
          _ <- printf os ("  ✓ Reloaded session: " +:+ Name sess
                          +:+ String "010" "") ;;
          reloadSessions configPath sessions'
      end
  end.

Definition Client_ReloadConfig : IO W error :=
  '(sessions, err) <- Client_ListSessions ;;
  match err with
  | Some e =>
      io_ret (Some (wrapError ("failed to list sessions: " +:+ Error e) e))
  | None =>
      if bool_decide (length sessions = 0%nat) then
        io_ret (Some (errorString "no active tmux sessions"))
      else
        configPath <- expandEnv os "$HOME/.config/tmux/tmux.conf" ;;
        reloadSessions configPath sessions
  end.

(** *** The tmuxinator client (tmux/tmuxinator.go) *)

Definition Tmuxinator_IsInstalled : IO W bool :=
  '(_, err) <- lookPath os "tmuxinator" ;;
  io_ret (isNil err).

(** The two nested loops of [ListProjects]. *)
Definition projectsOfLines (lines : list string) : list string :=
  flat_map (λ line,
              List.filter (λ project, bool_decide (project ≠ ""))
                (strings_Fields line)) lines.

Definition Tmuxinator_ListProjects : IO W (list string * error) :=
  installed <- Tmuxinator_IsInstalled ;;
  if negb installed then io_ret ([], None)
  else
    '(output, err) <- combinedOutput os (exec_Command ["tmuxinator"; "list"]) ;;
    if negb (isNil err) then io_ret ([], None)
    else
      let lines := strings_Split (strings_TrimSpace output) "010" in
      if (length lines <? 2)%nat then io_ret ([], None)
      else io_ret (projectsOfLines (drop 1 lines), None).

Definition Tmuxinator_ProjectExists (name : string) : IO W (bool * error) :=
  '(projects, err) <- Tmuxinator_ListProjects ;;
  if negb (isNil err) then io_ret (false, err)
  else io_ret (existsb (λ project, bool_decide (project = name)) projects, None).

Definition Tmuxinator_StartProject (name : string) (fromTmux : bool)
  : IO W error :=
  if fromTmux then
    err <- run os (exec_Command ["tmuxinator"; "start"; name; "--no-attach"]) ;;
    if negb (isNil err) then io_ret err
    else Client_SwitchToSession name true
  else run os (exec_Command ["tmuxinator"; "start"; name]).

(** *** The adapters as ports of the manager, and the wiring of main.go *)

(** An adapter method as a port method: the calls on the outside are no
    longer recorded. *)
Definition asPort {A} (c : IO W A) : W → A * W := λ w, (c w).1.

Definition Client_port : TmuxClient.t W := {|
  TmuxClient.ListSessions := asPort Client_ListSessions;
  TmuxClient.SessionExists := λ name, asPort (Client_SessionExists name);
  TmuxClient.CreateSession := λ sess, asPort (Client_CreateSession sess);
  TmuxClient.SwitchToSession := λ name fromTmux,
    asPort (Client_SwitchToSession name fromTmux);
  TmuxClient.AttachToSession := λ name, asPort (Client_AttachToSession name);
  TmuxClient.IsInsideTmux := asPort Client_IsInsideTmux;
  TmuxClient.SwitchToLastSession := asPort Client_SwitchToLastSession;
  TmuxClient.DeleteSession := λ name, asPort (Client_DeleteSession name);
  TmuxClient.ReloadConfig := asPort Client_ReloadConfig
|}.

Definition Tmuxinator_port : TmuxinatorClient.t W := {|
  TmuxinatorClient.ListProjects := asPort Tmuxinator_ListProjects;
  TmuxinatorClient.ProjectExists := λ name,
    asPort (Tmuxinator_ProjectExists name);
  TmuxinatorClient.StartProject := λ name fromTmux,
    asPort (Tmuxinator_StartProject name fromTmux);
  TmuxinatorClient.IsInstalled := asPort Tmuxinator_IsInstalled
|}.

Definition detectPlatform : IO W string :=
  if bool_decide (runtime_GOOS os = "darwin") then io_ret "macos"
  else
    wsl <- getenv os "WSL_DISTRO_NAME" ;;
    if bool_decide (wsl ≠ "") then io_ret "wsl"
    else io_ret (runtime_GOOS os).

Definition createSessionManager : IO W (Manager W) :=
  configLoader <- NewLoader os ;;
  platform <- detectPlatform ;;
  io_ret (NewManager Client_port Tmuxinator_port
            (Loader_port os configLoader) platform).

End TmuxAdapters.

(** Ports whose checks keep to the Go convention: the live check and the
    live listing report no error, and the config lookup hands out an
    entry whenever it reports none. *)
Definition reliableChecks {W : Type} (m : Manager W) : Prop :=
  (∀ n w, (TmuxClient.SessionExists (tmuxClient m) n w).1.2 = None) ∧
  (∀ w, (TmuxClient.ListSessions (tmuxClient m) w).1.2 = None) ∧
  (∀ n p w, (ConfigLoader.GetSessionConfig (configLoader m) n p w).1
            ≠ (None, None)).

(** ** Facts on sort.Slice *)

Section SortSlice.
Context {A : Type} (less : A → A → bool).

Lemma sinkLeft_Permutation (x : A) (revPrefix : list A) :
  sinkLeft less x revPrefix ≡ₚ x :: revPrefix.
Proof.
  induction revPrefix as [|y rest IH]; simpl; [done|].
  destruct (less x y); [|done].
  rewrite IH. apply Permutation_swap.
Qed.

Lemma sinking_Permutation (data acc : list A) :
  foldl (λ revPrefix x, sinkLeft less x revPrefix) acc data ≡ₚ data ++ acc.
Proof.
  revert acc. induction data as [|x data IH]; intros acc; simpl; [done|].
  rewrite IH, sinkLeft_Permutation. by rewrite Permutation_middle.
Qed.

Lemma sort_Slice_Permutation (data : list A) : sort_Slice less data ≡ₚ data.
Proof.
  unfold sort_Slice. rewrite <- Permutation_rev, sinking_Permutation.
  by rewrite app_nil_r.
Qed.

(** [le] is the order [less] is the strict part of. *)
Context (le : A → A → Prop).
Context (le_trans : Transitive le).
Context (less_le : ∀ x y, less x y = true → le x y).
Context (not_less_le : ∀ x y, less x y = false → le y x).

Lemma sinkLeft_descending (x : A) (revPrefix : list A) :
  StronglySorted (flip le) revPrefix →
  StronglySorted (flip le) (sinkLeft less x revPrefix).
Proof.
  induction revPrefix as [|y rest IH]; simpl; intros Hs.
  - repeat constructor.
  - apply StronglySorted_inv in Hs as [Hrest Hy].
    destruct (less x y) eqn:Hxy.
    + constructor; [by apply IH|].
      rewrite sinkLeft_Permutation. constructor; [|done].
      by apply less_le.
    + constructor; [by constructor|].
      apply not_less_le in Hxy. constructor; [done|].
      eapply Forall_impl; [exact Hy|]. intros z Hz. unfold flip in *. by etrans.
Qed.

Lemma sinking_descending (data acc : list A) :
  StronglySorted (flip le) acc →
  StronglySorted (flip le)
    (foldl (λ revPrefix x, sinkLeft less x revPrefix) acc data).
Proof.
  revert acc. induction data as [|x data IH]; intros acc Hacc; simpl; [done|].
  by apply IH, sinkLeft_descending.
Qed.

Lemma rev_descending (l : list A) :
  StronglySorted (flip le) l → StronglySorted le (rev l).
Proof.
  induction 1 as [|x l Hl IH Hx]; simpl; [constructor|].
  apply StronglySorted_app; split_and!; [|done|repeat constructor].
  intros a b Ha ->%list_elem_of_singleton.
  rewrite Forall_forall in Hx. apply Hx.
  apply list_elem_of_In, in_rev. by apply list_elem_of_In.
Qed.

Lemma sort_Slice_StronglySorted (data : list A) :
  StronglySorted le (sort_Slice less data).
Proof. apply rev_descending, sinking_descending. constructor. Qed.

End SortSlice.

(** ** The order on names *)

#[global] Instance nameLe_trans : Transitive nameLe.
Proof. intros a b c. unfold nameLe. apply transitivity. Qed.

Lemma nameLess_nameLe (a b : Session) : nameLess a b = true → nameLe a b.
Proof.
  unfold nameLess, nameLe, String.le, String.ltb, String.leb.
  by destruct (String.compare (Name a) (Name b)).
Qed.

Lemma not_nameLess_nameLe (a b : Session) : nameLess a b = false → nameLe b a.
Proof.
  unfold nameLess, nameLe, String.le, String.ltb, String.leb.
  rewrite (String.compare_antisym (Name a) (Name b)).
  by destruct (String.compare (Name b) (Name a)).
Qed.

(** ** The accumulation of ListAll *)

Lemma hasName_insert (names : gmap string bool) (k n : string) :
  hasName (<[k := true]> names) n = true ↔ n = k ∨ hasName names n = true.
Proof.
  unfold hasName. destruct (decide (k = n)) as [->|Hne].
  - rewrite lookup_insert_eq. simpl. tauto.
  - rewrite lookup_insert_ne by done. split; [tauto|]. by intros [->|].
Qed.

Lemma markName_agree (live : list Session) (acc : list Session) (names : gmap string bool) :
  namesAgree (acc, names) →
  namesAgree (acc ++ live, foldl markName names live).
Proof.
  revert acc names. induction live as [|s live IH]; intros acc names Hacc; simpl.
  - by rewrite app_nil_r.
  - rewrite (cons_middle s), app_assoc. apply IH.
    intros n. simpl. unfold markName. rewrite hasName_insert, fmap_app, elem_of_app.
    rewrite (Hacc n). simpl. rewrite list_elem_of_singleton. tauto.
Qed.

Lemma live_agree (live : list Session) :
  namesAgree (live, foldl markName ∅ live).
Proof.
  apply (markName_agree live [] ∅). intros n. unfold hasName. simpl.
  rewrite lookup_empty. simpl. split; [done|]. by intros ?%elem_of_nil.
Qed.

Section AddIfNew.
Context {X : Type} (mk : X → Session).
Context (step : list Session * gmap string bool → X →
                list Session * gmap string bool).
Context (step_eq : ∀ acc x,
  step acc x = if negb (hasName acc.2 (Name (mk x)))
               then (acc.1 ++ [mk x], <[Name (mk x) := true]> acc.2)
               else acc).

Lemma addIfNew_spec (xs : list X) (acc : list Session * gmap string bool) :
  namesAgree acc →
  namesAgree (foldl step acc xs) ∧
  ∃ extra,
    (foldl step acc xs).1 = acc.1 ++ extra ∧
    (∀ r, r ∈ extra → ∃ x, x ∈ xs ∧ r = mk x ∧ Name r ∉ Name <$> acc.1) ∧
    NoDup (Name <$> extra) ∧
    (∀ x, x ∈ xs → Name (mk x) ∈ Name <$> acc.1 ++ extra).
Proof.
  revert acc. induction xs as [|x xs IH]; intros acc Hacc; simpl.
  - split; [done|]. exists []. rewrite app_nil_r. split_and!; [done| |constructor|].
    + by intros r ?%elem_of_nil.
    + by intros x ?%elem_of_nil.
  - rewrite step_eq. destruct (hasName acc.2 (Name (mk x))) eqn:Hx; simpl.
    + destruct (IH acc Hacc) as (Hagree & extra & Heq & Hfrom & Hnd & Hcov).
      split; [done|]. exists extra. split_and!; [done| |done|].
      * intros r Hr. destruct (Hfrom r Hr) as (x' & ? & ? & ?).
        exists x'. by rewrite elem_of_cons; auto.
      * intros x' [->|Hx']%elem_of_cons; [|by auto].
        apply Hacc in Hx. rewrite fmap_app, elem_of_app. by left.
    + assert (Hnew : Name (mk x) ∉ Name <$> acc.1).
      { intros Hin%Hacc. congruence. }
      assert (Hacc1 : namesAgree (acc.1 ++ [mk x], <[Name (mk x) := true]> acc.2)).
      { intros n. simpl. rewrite hasName_insert, fmap_app, elem_of_app.
        rewrite (Hacc n). simpl. rewrite list_elem_of_singleton. tauto. }
      destruct (IH _ Hacc1) as (Hagree & extra & Heq & Hfrom & Hnd & Hcov).
      simpl in *. split; [done|]. exists (mk x :: extra).
      split_and!.
      * by rewrite Heq, <- app_assoc.
      * intros r [->|Hr]%elem_of_cons.
        { exists x. by rewrite elem_of_cons; auto. }
        destruct (Hfrom r Hr) as (x' & ? & ? & Hnot).
        exists x'. rewrite elem_of_cons. split_and!; [by auto|done|].
        intros Hin. apply Hnot. rewrite fmap_app, elem_of_app. by left.
      * simpl. constructor; [|done].
        intros (r & Hname & Hr)%list_elem_of_fmap.
        destruct (Hfrom r Hr) as (_ & _ & _ & Hnot). apply Hnot.
        rewrite <- Hname, fmap_app, elem_of_app. right. simpl. by left.
      * intros x' Hx'. rewrite (cons_middle (mk x)), app_assoc.
        apply elem_of_cons in Hx' as [->|Hx']; [|by auto].
        rewrite !fmap_app, !elem_of_app. left. right. simpl. by left.
Qed.

End AddIfNew.

Lemma mergeSources_spec (live : list Session) (projects : list string)
    (defaults : list SessionConfig) :
  ∃ extraP extraD,
    mergeSources live projects defaults = live ++ extraP ++ extraD ∧
    (∀ r, r ∈ extraP →
       ∃ p, p ∈ projects ∧ r = tmuxinatorSession p ∧ p ∉ Name <$> live) ∧
    (∀ r, r ∈ extraD →
       ∃ c, c ∈ defaults ∧ r = defaultSession c ∧
            cfgName c ∉ Name <$> live ++ extraP) ∧
    NoDup (Name <$> extraP) ∧ NoDup (Name <$> extraD) ∧
    (∀ p, p ∈ projects → p ∈ Name <$> live ++ extraP) ∧
    (∀ c, c ∈ defaults → cfgName c ∈ Name <$> live ++ extraP ++ extraD).
Proof.
  unfold mergeSources.
  destruct (addIfNew_spec tmuxinatorSession addProject
              (λ acc x, match acc with (_, _) => eq_refl end)
              projects _ (live_agree live))
    as (Hagree & extraP & HeqP & HfromP & HndP & HcovP).
  destruct (addIfNew_spec defaultSession addDefault
              (λ acc x, match acc with (_, _) => eq_refl end)
              defaults _ Hagree)
    as (_ & extraD & HeqD & HfromD & HndD & HcovD).
  simpl in *. exists extraP, extraD. rewrite HeqD, HeqP, <- app_assoc.
  split_and!; try done.
  - intros r Hr. destruct (HfromP r Hr) as (p & ? & -> & ?). by exists p.
  - intros r Hr. destruct (HfromD r Hr) as (c & ? & -> & Hnot).
    exists c. by rewrite HeqP in Hnot.
  - intros c Hc. specialize (HcovD c Hc). by rewrite HeqP, <- app_assoc in HcovD.
Qed.

Lemma merged_names_NoDup (live : list Session) (projects : list string)
    (defaults : list SessionConfig) :
  NoDup (Name <$> live) →
  NoDup (Name <$> mergeSources live projects defaults).
Proof.
  intros Hlive.
  destruct (mergeSources_spec live projects defaults)
    as (extraP & extraD & -> & HfromP & HfromD & HndP & HndD & _).
  rewrite app_assoc, fmap_app. apply NoDup_app. split_and!; [|
    |done].
  - rewrite fmap_app. apply NoDup_app. split_and!; [done| |done].
    intros n Hn (r & -> & Hr)%list_elem_of_fmap.
    destruct (HfromP r Hr) as (p & _ & -> & Hnot). by apply Hnot.
  - intros n Hn (r & -> & Hr)%list_elem_of_fmap.
    destruct (HfromD r Hr) as (c & _ & -> & Hnot). by apply Hnot.
Qed.

Lemma merged_names (live : list Session) (projects : list string)
    (defaults : list SessionConfig) (n : string) :
  n ∈ Name <$> mergeSources live projects defaults ↔
  n ∈ Name <$> live ∨ n ∈ projects ∨ n ∈ cfgName <$> defaults.
Proof.
  destruct (mergeSources_spec live projects defaults)
    as (extraP & extraD & Heq & HfromP & HfromD & _ & _ & HcovP & HcovD).
  split.
  - rewrite Heq, !fmap_app, !elem_of_app.
    intros [Hn|[(r & -> & Hr)%list_elem_of_fmap|(r & -> & Hr)%list_elem_of_fmap]].
    + by left.
    + destruct (HfromP r Hr) as (p & ? & -> & _). right; by left.
    + destruct (HfromD r Hr) as (c & ? & -> & _). right; right.
      apply list_elem_of_fmap. by exists c.
  - intros [Hn|[Hn|(c & -> & Hc)%list_elem_of_fmap]].
    + rewrite Heq, fmap_app, elem_of_app. by left.
    + rewrite Heq, app_assoc, fmap_app, elem_of_app. left. by apply HcovP.
    + rewrite Heq. by apply HcovD.
Qed.

Lemma merged_origin (live : list Session) (projects : list string)
    (defaults : list SessionConfig) (r : Session) :
  r ∈ mergeSources live projects defaults →
  (Name r ∈ Name <$> live → r ∈ live) ∧
  (Name r ∉ Name <$> live → Name r ∈ projects →
   r = tmuxinatorSession (Name r)) ∧
  (Name r ∉ Name <$> live → Name r ∉ projects →
   ∃ c, c ∈ defaults ∧ r = defaultSession c).
Proof.
  destruct (mergeSources_spec live projects defaults)
    as (extraP & extraD & -> & HfromP & HfromD & _ & _ & HcovP & _).
  rewrite !elem_of_app. intros [Hr|[Hr|Hr]].
  - split_and!; [done| |]; intros Hnot; destruct Hnot;
      apply list_elem_of_fmap; by exists r.
  - destruct (HfromP r Hr) as (p & Hp & -> & Hnot). simpl.
    split_and!; [done|done|]. by intros _ [].
  - destruct (HfromD r Hr) as (c & Hc & -> & Hnot). simpl.
    rewrite fmap_app, elem_of_app in Hnot.
    split_and!.
    + intros ?. destruct Hnot. by left.
    + intros _ Hp%HcovP. destruct Hnot. by rewrite fmap_app, elem_of_app in Hp.
    + intros _ _. by exists c.
Qed.

Lemma live_in_merged (live : list Session) (projects : list string)
    (defaults : list SessionConfig) (s : Session) :
  s ∈ live → s ∈ mergeSources live projects defaults.
Proof.
  destruct (mergeSources_spec live projects defaults)
    as (extraP & extraD & -> & _).
  rewrite elem_of_app. by left.
Qed.

Lemma filter_name_absent (l : list Session) (n : string) :
  n ∉ Name <$> l → filter (λ r, Name r = n) l = [].
Proof.
  induction l as [|a l IH]; simpl; intros Hn; [done|].
  rewrite not_elem_of_cons in Hn. destruct Hn as [Hne Hn].
  rewrite filter_cons_False by done. by apply IH.
Qed.

(** In a list without two records of one name, the records of a given
    name are that one record. *)
Lemma filter_name_unique (l : list Session) (s : Session) :
  NoDup (Name <$> l) → s ∈ l →
  filter (λ r, Name r = Name s) l = [s].
Proof.
  induction l as [|a l IH]; simpl; intros Hnd Hs.
  - by apply elem_of_nil in Hs.
  - apply NoDup_cons in Hnd as [Ha Hnd].
    apply elem_of_cons in Hs as [->|Hs].
    + rewrite filter_cons_True by done. f_equal.
      by apply filter_name_absent.
    + rewrite filter_cons_False; [by apply IH|].
      intros Heq. apply Ha. rewrite Heq. apply list_elem_of_fmap. by exists s.
Qed.

(** ** Running manager code *)

(** Name the answer of the next port call and split it into its
    components. *)
Ltac port_answer :=
  match goal with
  | |- context [TmuxClient.ListSessions ?c ?w] =>
      destruct (TmuxClient.ListSessions c w) as [[? [?|]] ?] eqn:?
  | |- context [TmuxClient.SessionExists ?c ?n ?w] =>
      destruct (TmuxClient.SessionExists c n w) as [[[|] [?|]] ?] eqn:?
  | |- context [TmuxClient.CreateSession ?c ?s ?w] =>
      destruct (TmuxClient.CreateSession c s w) as [? ?] eqn:?
  | |- context [TmuxClient.SwitchToSession ?c ?n ?b ?w] =>
      destruct (TmuxClient.SwitchToSession c n b w) as [? ?] eqn:?
  | |- context [TmuxClient.IsInsideTmux ?c ?w] =>
      destruct (TmuxClient.IsInsideTmux c w) as [? ?] eqn:?
  | |- context [TmuxinatorClient.ListProjects ?c ?w] =>
      destruct (TmuxinatorClient.ListProjects c w) as [[? [?|]] ?] eqn:?
  | |- context [TmuxinatorClient.ProjectExists ?c ?n ?w] =>
      destruct (TmuxinatorClient.ProjectExists c n w) as [[[|] [?|]] ?] eqn:?
  | |- context [TmuxinatorClient.StartProject ?c ?n ?b ?w] =>
      destruct (TmuxinatorClient.StartProject c n b w) as [? ?] eqn:?
  | |- context [TmuxinatorClient.IsInstalled ?c ?w] =>
      destruct (TmuxinatorClient.IsInstalled c w) as [[|] ?] eqn:?
  | |- context [ConfigLoader.LoadDefaultSessions ?c ?p ?w] =>
      destruct (ConfigLoader.LoadDefaultSessions c p w) as [[? [?|]] ?] eqn:?
  | |- context [ConfigLoader.GetSessionConfig ?c ?n ?p ?w] =>
      destruct (ConfigLoader.GetSessionConfig c n p w) as [[[?|] [?|]] ?] eqn:?
  end.

Ltac run_ports := repeat (cbn; port_answer); cbn.

Ltac unfold_manager :=
  unfold GoToSession, SessionExists, CreateOrSwitch, GetSessionInfo,
    infoBelowLive, createDefaultSession, isTmuxinatorProject, DeleteSession,
    SwitchToLast,
    tmuxClient_ListSessions, tmuxClient_SessionExists,
    tmuxClient_CreateSession, tmuxClient_SwitchToSession,
    tmuxClient_IsInsideTmux, tmuxClient_SwitchToLastSession,
    tmuxClient_DeleteSession, tmuxinatorClient_ListProjects,
    tmuxinatorClient_ProjectExists, tmuxinatorClient_StartProject,
    tmuxinatorClient_IsInstalled, configLoader_LoadDefaultSessions,
    configLoader_GetSessionConfig, call, deref, bind, ret, outcome, trace.

(** Run a manager method through every answer the ports may give. *)
Ltac run_manager :=
  repeat (cbn; first
    [ port_answer
    | case_bool_decide
    | match goal with
      | |- context [find ?f ?l] =>
          let Hfind := fresh "Hfind" in destruct (find f l) eqn:Hfind
      end ]);
  cbn.

(** Split the hypotheses that place an event in a trace now known. *)
Ltac in_trace :=
  repeat match goal with
  | H : _ ∈ [] |- _ => by apply elem_of_nil in H
  | H : _ ∈ _ :: _ |- _ =>
      apply elem_of_cons in H as [H|H]; [simplify_eq|]
  end.

Section Runs.
Context {W : Type} (m : Manager W).

Lemma ListAll_run (w : W) :
  outcome (ListAll m w) =
  Returned (sort_Slice nameLess
              (mergeSources (offeredLive (trace (ListAll m w)))
                            (offeredProjects (trace (ListAll m w)))
                            (offeredDefaults (trace (ListAll m w)))),
            None).
Proof.
  unfold ListAll, outcome, trace, bind, ret,
    tmuxClient_ListSessions, tmuxinatorClient_IsInstalled,
    tmuxinatorClient_ListProjects, configLoader_LoadDefaultSessions, call.
  run_ports.
  all: by rewrite ?app_nil_r.
Qed.

Lemma ListAll_Permutation (w : W) :
  ∃ out, outcome (ListAll m w) = Returned (out, None) ∧
    out ≡ₚ mergeSources (offeredLive (trace (ListAll m w)))
                        (offeredProjects (trace (ListAll m w)))
                        (offeredDefaults (trace (ListAll m w))).
Proof.
  eexists. split; [apply ListAll_run|]. apply sort_Slice_Permutation.
Qed.

End Runs.

(** C9: whatever the three ports answer, errors included, the error
    result of [ListAll] is nil. *)
Theorem ListAll_error_always_nil {W : Type} (m : Manager W) (w : W) :
  ∃ sessions, outcome (ListAll m w) = Returned (sessions, None).
Proof. eexists. apply ListAll_run. Qed.

(** C7: whatever the three ports answer, the slice [ListAll] returns is
    in ascending order of the names, compared as Go compares strings
    (byte by byte). *)
Theorem ListAll_sorted_by_name {W : Type} (m : Manager W) (w : W) :
  ∃ sessions, outcome (ListAll m w) = Returned (sessions, None) ∧
    StronglySorted (λ a b, String.le (Name a) (Name b)) sessions.
Proof.
  eexists. split; [apply ListAll_run|].
  apply (sort_Slice_StronglySorted nameLess nameLe _
           nameLess_nameLe not_nameLess_nameLe).
Qed.

(** C1, as amended: when the live listing itself holds no name twice and
    tags its records as live, the names of the slice [ListAll] returns
    are pairwise distinct and are exactly the names some source offered;
    every record comes from the highest-precedence source offering its
    name (the live listing's own record, else a tmuxinator record, else
    the record of a declared default); and a name both live and a
    tmuxinator project appears exactly once, as the live record, of type
    [tmux]. *)
Theorem ListAll_unique_names_by_precedence {W : Type} (m : Manager W) (w : W) :
  let live := offeredLive (trace (ListAll m w)) in
  let projects := offeredProjects (trace (ListAll m w)) in
  let defaults := offeredDefaults (trace (ListAll m w)) in
  NoDup (Name <$> live) →
  Forall (λ s, Type_ s = SessionTypeTmux) live →
  ∃ out, outcome (ListAll m w) = Returned (out, None) ∧
    NoDup (Name <$> out) ∧
    (∀ n, n ∈ Name <$> out ↔
          n ∈ Name <$> live ∨ n ∈ projects ∨ n ∈ cfgName <$> defaults) ∧
    (∀ r, r ∈ out →
       (Name r ∈ Name <$> live → r ∈ live) ∧
       (Name r ∉ Name <$> live → Name r ∈ projects →
        r = tmuxinatorSession (Name r)) ∧
       (Name r ∉ Name <$> live → Name r ∉ projects →
        ∃ c, c ∈ defaults ∧ r = defaultSession c)) ∧
    (∀ n, n ∈ Name <$> live → n ∈ projects →
       ∃ s, s ∈ live ∧ Type_ s = SessionTypeTmux ∧
            filter (λ r, Name r = n) out = [s]).
Proof.
  intros live projects defaults Hnd Htyped.
  destruct (ListAll_Permutation m w) as (out & Hout & Hperm).
  fold live projects defaults in Hperm.
  assert (Hnames : NoDup (Name <$> out)).
  { rewrite Hperm. by apply merged_names_NoDup. }
  exists out. split_and!; [done|done| | |].
  - intros n. rewrite Hperm. apply merged_names.
  - intros r. rewrite Hperm. apply merged_origin.
  - intros n (s & -> & Hs)%list_elem_of_fmap _. exists s. split_and!; [done| |].
    + rewrite Forall_forall in Htyped. by apply Htyped.
    + apply filter_name_unique; [done|].
      rewrite Hperm. by apply live_in_merged.
Qed.

(** The test case "no duplicates when tmuxinator project is running". *)
Lemma ListAll_unique_names_by_precedence_witness :
  ∃ out,
    outcome (ListAll (createTestManager [liveSession "proj1" 2]
                        ["proj1"; "proj2"] []) ()) = Returned (out, None) ∧
    NoDup (Name <$> out) ∧
    filter (λ r, Name r = "proj1") out = [liveSession "proj1" 2].
Proof.
  destruct (ListAll_unique_names_by_precedence
              (createTestManager [liveSession "proj1" 2]
                 ["proj1"; "proj2"] []) ())
    as (out & Hout & Hnd & _ & _ & Hboth).
  - vm_compute. repeat constructor. intros Hin. in_trace.
  - vm_compute. by repeat constructor.
  - exists out. split_and!; [done|done|].
    destruct (Hboth "proj1") as (s & Hs & _ & Hf).
    + vm_compute. by repeat constructor.
    + vm_compute. by repeat constructor.
    + rewrite Hf. f_equal. vm_compute in Hs.
      by apply list_elem_of_singleton in Hs.
Defined.

(** C1 as stated fails: a live listing that reports the name "A" twice,
    once without the live tag, while "A" is also a tmuxinator project.
    Both records survive, and one of them is not of type [tmux]. *)
Lemma ListAll_duplicate_live_names :
  ∃ out,
    outcome (ListAll (createTestManager
                        [liveSession "A" 2;
                         {| Name := "A"; Type_ := ""; WindowCount := 1;
                            Directory := ""; Description := "";
                            IsActive := false; TmuxinatorProject := "";
                            CreatedAt := 0 |}]
                        ["A"] []) ()) = Returned (out, None) ∧
    ¬ NoDup (Name <$> out) ∧
    length (filter (λ r, Name r = "A") out) = 2%nat ∧
    ¬ Forall (λ r, Name r = "A" → Type_ r = SessionTypeTmux) out.
Proof.
  eexists. split; [vm_compute; reflexivity|]. split_and!.
  - intros Hnd. apply NoDup_cons in Hnd as [Hin _]. apply Hin. by repeat constructor.
  - reflexivity.
  - intros Hall. rewrite Forall_forall in Hall.
    specialize (Hall {| Name := "A"; Type_ := ""; WindowCount := 1;
                        Directory := ""; Description := "";
                        IsActive := false; TmuxinatorProject := "";
                        CreatedAt := 0 |}).
    discriminate Hall; [by repeat constructor|done].
Qed.

(** ** The resolution chain *)

(** C4: when the multiplexer confirms the name as a live session,
    [CreateOrSwitch] asks whether it runs inside tmux, issues one switch
    call and returns its result, and no creation call is made; when the
    existence check answers with an error, [CreateOrSwitch] makes no
    further call and returns that error, wrapped with the context of the
    failed check. *)
Theorem CreateOrSwitch_live_or_check_error {W : Type} (m : Manager W)
    (name : string) (w : W) (ok : bool) (err : error) :
  let r := CreateOrSwitch m name w in
  EvSessionExists name ok err ∈ trace r →
  ok = true ∨ err ≠ None →
  match err with
  | Some e =>
      trace r = [EvSessionExists name ok (Some e)] ∧
      outcome r =
        Returned (Some (wrapError
                    ("failed to check if session exists: " +:+ Error e) e))
  | None =>
      ∃ inTmux switchErr,
        trace r = [EvSessionExists name true None; EvIsInsideTmux inTmux;
                   EvSwitchToSession name inTmux switchErr] ∧
        outcome r = Returned switchErr
  end.
Proof.
  intros r. subst r. unfold_manager. run_manager.
  all: intros Hin Hok; in_trace; try (destruct Hok; congruence); eauto.
Qed.

(** The test case "switch to existing tmux session". *)
Lemma CreateOrSwitch_live_or_check_error_witness :
  ∃ inTmux switchErr,
    trace (CreateOrSwitch (createTestManager [liveSession "existing" 0] [] [])
             "existing" ()) =
      [EvSessionExists "existing" true None; EvIsInsideTmux inTmux;
       EvSwitchToSession "existing" inTmux switchErr] ∧
    outcome (CreateOrSwitch (createTestManager [liveSession "existing" 0] [] [])
               "existing" ()) = Returned switchErr.
Proof.
  apply (CreateOrSwitch_live_or_check_error
           (createTestManager [liveSession "existing" 0] [] [])
           "existing" () true None).
  - vm_compute. by left.
  - by left.
Defined.

(** C5: when no source reports the name (the live check says no, the
    tmuxinator probe does not confirm, the config lookup fails),
    [CreateOrSwitch] makes exactly one side-effecting call, the creation
    of a plain tmux session of that name with an empty directory, and
    returns its result. *)
Theorem CreateOrSwitch_fallback_plain_create {W : Type} (m : Manager W)
    (name : string) (w : W) :
  let r := CreateOrSwitch m name w in
  forallb reportsAbsent (trace r) = true →
  ∃ createErr,
    List.filter sideEffecting (trace r) =
      [EvCreateSession
         {| Name := name; Type_ := SessionTypeTmux; WindowCount := 0;
            Directory := ""; Description := ""; IsActive := false;
            TmuxinatorProject := ""; CreatedAt := 0 |} createErr] ∧
    outcome r = Returned createErr.
Proof.
  intros r. subst r. unfold_manager. run_manager.
  all: intros Habsent; try discriminate Habsent; eauto.
Qed.

Lemma CreateOrSwitch_fallback_plain_create_witness :
  ∃ createErr,
    List.filter sideEffecting
      (trace (CreateOrSwitch (createTestManager [liveSession "existing" 0]
                                ["proj1"] []) "scratch" ())) =
      [EvCreateSession (plainSession "scratch" "") createErr] ∧
    outcome (CreateOrSwitch (createTestManager [liveSession "existing" 0]
                               ["proj1"] []) "scratch" ()) =
      Returned createErr.
Proof.
  apply (CreateOrSwitch_fallback_plain_create
           (createTestManager [liveSession "existing" 0] ["proj1"] [])
           "scratch" ()).
  vm_compute. reflexivity.
Defined.

(** C3: when no source reports the name, [GoToSession] returns the error
    "session '<name>' not found" and its trace holds no side-effecting
    call, hence no creation call. *)
Theorem GoToSession_not_found {W : Type} (m : Manager W)
    (name : string) (w : W) :
  let r := GoToSession m name w in
  forallb reportsAbsent (trace r) = true →
  outcome r =
    Returned (Some (errorString ("session '" +:+ name +:+ "' not found"))) ∧
  List.filter sideEffecting (trace r) = [].
Proof.
  intros r. subst r. unfold_manager. run_manager.
  all: intros Habsent; try discriminate Habsent; eauto.
Qed.

Lemma GoToSession_not_found_witness :
  outcome (GoToSession (createTestManager [liveSession "existing" 0]
                          ["proj1"] []) "Z" ()) =
    Returned (Some (errorString "session 'Z' not found")) ∧
  List.filter sideEffecting
    (trace (GoToSession (createTestManager [liveSession "existing" 0]
                           ["proj1"] []) "Z" ())) = [].
Proof.
  apply (GoToSession_not_found
           (createTestManager [liveSession "existing" 0] ["proj1"] [])
           "Z" ()).
  vm_compute. reflexivity.
Defined.

(** C6: [SessionExists] makes no side-effecting call; it answers [true]
    at the first tier that confirms the name, in the order live session,
    tmuxinator project, declared default, and [false] when none does; an
    error of the tmuxinator probe or of the config lookup counts as
    absence; an error of the live check is returned together with
    [false]. *)
Theorem SessionExists_probes_in_order {W : Type} (m : Manager W)
    (name : string) (w : W) :
  SessionExists_spec name (platform m)
    (trace (SessionExists m name w)) (outcome (SessionExists m name w)) ∧
  List.filter sideEffecting (trace (SessionExists m name w)) = [].
Proof.
  unfold_manager. run_manager.
  all: split; [|reflexivity].
  all: first
    [ by constructor
    | apply (exists_default _ _ [EvIsInstalled false]); by constructor
    | apply (exists_nowhere _ _ [EvIsInstalled false]); by constructor
    | apply (exists_default _ _ [EvIsInstalled true; EvProjectExists _ _ _]);
      by constructor
    | apply (exists_nowhere _ _ [EvIsInstalled true; EvProjectExists _ _ _]);
      by constructor ].
Qed.

(** C2, as amended: when [CreateOrSwitch] resolves a declared default
    entry, nothing side-effecting has happened before, and then: if the
    entry names a tmuxinator project and tmuxinator reports itself
    installed, the only call is the start of that project and the
    entry's directory is not used; if the entry names a project but
    tmuxinator is not installed, or if it names none, the only call is
    the creation of a plain session with the entry's name and
    directory. *)
Theorem CreateOrSwitch_default_entry {W : Type} (m : Manager W)
    (name : string) (w : W) (c : SessionConfig) :
  let r := CreateOrSwitch m name w in
  EvGetSessionConfig name (platform m) (Some c) None ∈ trace r →
  ∃ probes tail,
    trace r =
      probes ++ EvGetSessionConfig name (platform m) (Some c) None :: tail ∧
    List.filter sideEffecting probes = [] ∧
    materialized c tail (outcome r).
Proof.
  intros r. subst r. unfold_manager. run_manager.
  all: intros Hin; in_trace.
  all: match goal with
       | |- ∃ _ _, ?l = _ ∧ _ =>
           first [ exists (take 2 l); eexists; split_and!;
                   [reflexivity|reflexivity|]
                 | exists (take 3 l); eexists; split_and!;
                   [reflexivity|reflexivity|] ]
       end.
  all: first [ by constructor | apply by_create; by apply dec_stable ].
Qed.

(** The test case "create default session". *)
Lemma CreateOrSwitch_default_entry_witness :
  ∃ probes tail,
    trace (CreateOrSwitch
             (createTestManager [] []
                [{| cfgName := "default1"; cfgDescription := "";
                    cfgDirectory := "~/dir1"; cfgTmuxinatorProject := "" |}])
             "default1" ()) =
      probes ++
        EvGetSessionConfig "default1" "macos"
          (Some {| cfgName := "default1"; cfgDescription := "";
                   cfgDirectory := "~/dir1"; cfgTmuxinatorProject := "" |})
          None :: tail ∧
    List.filter sideEffecting probes = [] ∧
    materialized
      {| cfgName := "default1"; cfgDescription := "";
         cfgDirectory := "~/dir1"; cfgTmuxinatorProject := "" |}
      tail
      (outcome (CreateOrSwitch
                  (createTestManager [] []
                     [{| cfgName := "default1"; cfgDescription := "";
                         cfgDirectory := "~/dir1";
                         cfgTmuxinatorProject := "" |}])
                  "default1" ())).
Proof.
  apply (CreateOrSwitch_default_entry
           (createTestManager [] []
              [{| cfgName := "default1"; cfgDescription := "";
                  cfgDirectory := "~/dir1"; cfgTmuxinatorProject := "" |}])
           "default1" ()).
  vm_compute. by repeat constructor.
Defined.

(** C2 as stated fails: the entry "d" names the tmuxinator project
    "proj", tmuxinator is not installed, and [CreateOrSwitch] creates a
    plain session in the entry's directory; no project is started. *)
Lemma CreateOrSwitch_default_ref_without_launcher :
  let c := {| cfgName := "d"; cfgDescription := ""; cfgDirectory := "/w";
              cfgTmuxinatorProject := "proj" |} in
  cfgTmuxinatorProject c ≠ "" ∧
  trace (CreateOrSwitch (createTestManager [] [] [c]) "d" ()) =
    [EvSessionExists "d" false None; EvIsInstalled false;
     EvGetSessionConfig "d" "macos" (Some c) None; EvIsInstalled false;
     EvCreateSession
       {| Name := "d"; Type_ := SessionTypeTmux; WindowCount := 0;
          Directory := "/w"; Description := ""; IsActive := false;
          TmuxinatorProject := ""; CreatedAt := 0 |} None].
Proof. split; [done|]. vm_compute. reflexivity. Qed.

(** C8: when [GetSessionInfo] finds the name in the live listing, as a
    record of type [tmux], it returns "<name> (1 window)" for a window
    count of 1 and "<name> (3 windows)" for a window count of 3; when it
    resolves the name as a declared default, it returns
    "default: <description>" for a non-empty description and
    "default (not started)" for an empty one. *)
Theorem GetSessionInfo_formats {W : Type} (m : Manager W)
    (name : string) (w : W) :
  let r := GetSessionInfo m name w in
  (∀ sessions sess,
     EvListSessions sessions None ∈ trace r →
     find (λ s, bool_decide (Name s = name)) sessions = Some sess →
     Type_ sess = SessionTypeTmux →
     (WindowCount sess = 1 →
      outcome r = Returned (name +:+ " (1 window)", None)) ∧
     (WindowCount sess = 3 →
      outcome r = Returned (name +:+ " (3 windows)", None))) ∧
  (∀ c,
     EvGetSessionConfig name (platform m) (Some c) None ∈ trace r →
     (cfgDescription c ≠ "" →
      outcome r = Returned ("default: " +:+ cfgDescription c, None)) ∧
     (cfgDescription c = "" →
      outcome r = Returned ("default (not started)", None))).
Proof.
  intros r. subst r. unfold_manager. run_manager.
  all: split; [intros sessions sess Hin Hfirst Htype|intros c Hin]; in_trace.
  all: try done.
  all: simplify_eq.
  apply find_some in Hfind as [_ Hname%bool_decide_eq_true]. subst name.
  unfold DisplayInfo, formatWindowCount. rewrite Htype.
  split; intros ->; reflexivity.
Qed.

(** The test case "default session with description", and a live
    session with one window. *)
Lemma GetSessionInfo_formats_witness :
  outcome (GetSessionInfo
             (createTestManager [liveSession "active" 1] ["proj1"]
                [{| cfgName := "default1"; cfgDescription := "Test default";
                    cfgDirectory := "~/dir1"; cfgTmuxinatorProject := "" |}])
             "default1" ()) = Returned ("default: Test default", None) ∧
  outcome (GetSessionInfo
             (createTestManager [liveSession "active" 1] ["proj1"]
                [{| cfgName := "default1"; cfgDescription := "Test default";
                    cfgDirectory := "~/dir1"; cfgTmuxinatorProject := "" |}])
             "active" ()) = Returned ("active (1 window)", None).
Proof.
  split.
  - apply (proj2 (GetSessionInfo_formats
             (createTestManager [liveSession "active" 1] ["proj1"]
                [{| cfgName := "default1"; cfgDescription := "Test default";
                    cfgDirectory := "~/dir1"; cfgTmuxinatorProject := "" |}])
             "default1" ())
           {| cfgName := "default1"; cfgDescription := "Test default";
              cfgDirectory := "~/dir1"; cfgTmuxinatorProject := "" |}).
    + vm_compute. by repeat constructor.
    + done.
  - apply (proj1 (GetSessionInfo_formats
             (createTestManager [liveSession "active" 1] ["proj1"]
                [{| cfgName := "default1"; cfgDescription := "Test default";
                    cfgDirectory := "~/dir1"; cfgTmuxinatorProject := "" |}])
             "active" ())
           [liveSession "active" 1] (liveSession "active" 1)).
    + vm_compute. by repeat constructor.
    + reflexivity.
    + reflexivity.
    + reflexivity.
Defined.

(** C10: when the live check confirms the name but the live listing,
    returned without an error, holds no record of that name,
    [GetSessionInfo] returns neither live-session info nor an error: it
    goes on to the tmuxinator probe, then to the config lookup, and
    returns "new session" when that fails.  The config port is taken to
    hand out an entry whenever it reports no error. *)
Theorem GetSessionInfo_live_but_unlisted {W : Type} (m : Manager W)
    (name : string) (w : W) (sessions : list Session) :
  let r := GetSessionInfo m name w in
  EvSessionExists name true None ∈ trace r →
  EvListSessions sessions None ∈ trace r →
  Forall (λ s, Name s ≠ name) sessions →
  EvGetSessionConfig name (platform m) None None ∉ trace r →
  ∃ rest,
    trace r =
      EvSessionExists name true None :: EvListSessions sessions None :: rest ∧
    infoBelowLive_spec name (platform m) rest (outcome r).
Proof.
  intros r. subst r. unfold_manager. run_manager.
  all: intros Hlive Hlist Hnone Hcfg; in_trace.
  all: try (exfalso; apply Hcfg; by repeat constructor).
  all: try (apply find_some in Hfind as [Hin Hname%bool_decide_eq_true];
            rewrite Forall_forall in Hnone;
            by destruct (Hnone _ (proj2 (list_elem_of_In _ _) Hin))).
  all: eexists; split; [reflexivity|].
  all: first
    [ by constructor
    | match goal with
      | |- infoBelowLive_spec ?n ?p ?l ?o =>
          first
            [ change (infoBelowLive_spec n p (take 1 l ++ drop 1 l) o);
              cbn [take drop]; constructor;
              first [ by constructor | by apply dec_stable | done ]
            | change (infoBelowLive_spec n p (take 2 l ++ drop 2 l) o);
              cbn [take drop]; constructor;
              first [ by constructor | by apply dec_stable | done ] ]
      end ].
Qed.

(** The name "gone" is confirmed by the live check but missing from the
    live listing; tmuxinator is not installed and no default is declared. *)
Lemma GetSessionInfo_live_but_unlisted_witness :
  let m : Manager () :=
    NewManager
      (mockTmuxClient
         {| mock_sessions := [liveSession "other" 2];
            mock_sessionExists := true; mock_isInsideTmux := false;
            mock_createErr := None; mock_switchErr := None;
            mock_lastSessionErr := None |})
      (mockTmuxinatorClient
         {| mock_projects := []; mock_isInstalled := false;
            mock_projectExists := false; mock_startErr := None |})
      (mockConfigLoader {| mock_configs := []; mock_loadErr := None |})
      "macos" in
  ∃ rest,
    trace (GetSessionInfo m "gone" ()) =
      EvSessionExists "gone" true None
        :: EvListSessions [liveSession "other" 2] None :: rest ∧
    infoBelowLive_spec "gone" "macos" rest (outcome (GetSessionInfo m "gone" ())).
Proof.
  intros m.
  apply (GetSessionInfo_live_but_unlisted m "gone" () [liveSession "other" 2]).
  - vm_compute. by repeat constructor.
  - vm_compute. by repeat constructor.
  - by repeat constructor.
  - intros Hin%list_elem_of_In. vm_compute in Hin. intuition discriminate.
Defined.

(** ** Further properties of the manager *)

Lemma merged_length (live : list Session) (projects : list string)
    (defaults : list SessionConfig) :
  (length live ≤ length (mergeSources live projects defaults) ≤
   length live + length projects + length defaults)%nat.
Proof.
  destruct (mergeSources_spec live projects defaults)
    as (extraP & extraD & -> & HfromP & HfromD & HndP & HndD & _).
  assert (length extraP ≤ length projects)%nat as HP.
  { rewrite <- (length_fmap Name extraP). apply submseteq_length.
    apply NoDup_submseteq; [done|].
    intros n (r & -> & Hr)%list_elem_of_fmap.
    by destruct (HfromP r Hr) as (p & ? & -> & _). }
  assert (length extraD ≤ length defaults)%nat as HD.
  { rewrite <- (length_fmap Name extraD), <- (length_fmap cfgName defaults).
    apply submseteq_length. apply NoDup_submseteq; [done|].
    intros n (r & -> & Hr)%list_elem_of_fmap.
    destruct (HfromD r Hr) as (c & ? & -> & _).
    apply list_elem_of_fmap. by exists c. }
  rewrite !length_app. lia.
Qed.

(** X1: [ListAll] returns at least as many records as the live listing
    offered and at most as many as the three sources offered together. *)
Theorem ListAll_length_bounds {W : Type} (m : Manager W) (w : W) :
  ∃ out, outcome (ListAll m w) = Returned (out, None) ∧
    (length (offeredLive (trace (ListAll m w))) ≤ length out ≤
     length (offeredLive (trace (ListAll m w))) +
     length (offeredProjects (trace (ListAll m w))) +
     length (offeredDefaults (trace (ListAll m w))))%nat.
Proof.
  destruct (ListAll_Permutation m w) as (out & Hout & Hperm).
  exists out. split; [done|]. rewrite Hperm. apply merged_length.
Qed.

(** X2: [ListAll] makes three or four calls and no other: the live
    listing, the tmuxinator availability check, the project listing
    exactly when tmuxinator reported itself installed, and the defaults
    of the manager's platform.  The later sources are consulted whatever
    the earlier ones answered, errors included. *)
Theorem ListAll_consults_every_source {W : Type} (m : Manager W) (w : W) :
  ∃ live liveErr installed probe defaults defaultsErr,
    trace (ListAll m w) =
      EvListSessions live liveErr :: EvIsInstalled installed ::
        probe ++ [EvLoadDefaultSessions (platform m) defaults defaultsErr] ∧
    (if installed then ∃ projects projectsErr,
                         probe = [EvListProjects projects projectsErr]
     else probe = []).
Proof.
  unfold ListAll, outcome, trace, bind, ret,
    tmuxClient_ListSessions, tmuxinatorClient_IsInstalled,
    tmuxinatorClient_ListProjects, configLoader_LoadDefaultSessions, call.
  run_ports.
  all: first
    [ by eexists _, _, true, [_], _, _; split; [reflexivity|eauto]
    | by eexists _, _, false, [], _, _; split ].
Qed.

(** X3: when the tmuxinator probe confirms the name, [CreateOrSwitch]
    has found no live session, starts the project of that name, passing
    on whether it runs inside tmux, returns the result of the start, and
    neither consults the config nor creates a session. *)
Theorem CreateOrSwitch_tmuxinator_project {W : Type} (m : Manager W)
    (name : string) (w : W) :
  let r := CreateOrSwitch m name w in
  EvProjectExists name true None ∈ trace r →
  ∃ inTmux startErr,
    trace r = [EvSessionExists name false None; EvIsInstalled true;
               EvProjectExists name true None; EvIsInsideTmux inTmux;
               EvStartProject name inTmux startErr] ∧
    outcome r = Returned startErr.
Proof.
  intros r. subst r. unfold_manager. run_manager.
  all: intros Hin; in_trace; eauto.
Qed.

Lemma CreateOrSwitch_tmuxinator_project_witness :
  ∃ inTmux startErr,
    trace (CreateOrSwitch (createTestManager [] ["proj1"] []) "proj1" ()) =
      [EvSessionExists "proj1" false None; EvIsInstalled true;
       EvProjectExists "proj1" true None; EvIsInsideTmux inTmux;
       EvStartProject "proj1" inTmux startErr] ∧
    outcome (CreateOrSwitch (createTestManager [] ["proj1"] []) "proj1" ()) =
      Returned startErr.
Proof.
  apply (CreateOrSwitch_tmuxinator_project
           (createTestManager [] ["proj1"] []) "proj1" ()).
  vm_compute. by repeat constructor.
Defined.

(** X4: [CreateOrSwitch] makes at most one side-effecting call; when
    it makes one, it is its last call and its error is what
    [CreateOrSwitch] returns; it makes none only when the live check
    failed or a nil config entry was dereferenced. *)
Theorem CreateOrSwitch_single_effect {W : Type} (m : Manager W)
    (name : string) (w : W) :
  let r := CreateOrSwitch m name w in
  match List.filter sideEffecting (trace r) with
  | [] => (∃ ok e, trace r = [EvSessionExists name ok (Some e)]) ∨
          outcome r = Panicked
  | [e] => last (trace r) = Some e ∧ outcome r = Returned (eventError e)
  | _ => False
  end.
Proof.
  intros r. subst r. unfold_manager. run_manager.
  all: eauto.
Qed.

(** X5: [GetSessionInfo] makes no side-effecting call, and it returns
    an error only with an empty info string, the error being the one of
    the live check or of the live listing, unchanged, after which no
    further call is made. *)
Theorem GetSessionInfo_reads_only {W : Type} (m : Manager W)
    (name : string) (w : W) :
  let r := GetSessionInfo m name w in
  List.filter sideEffecting (trace r) = [] ∧
  ∀ info e, outcome r = Returned (info, Some e) →
    info = "" ∧
    ((∃ ok, trace r = [EvSessionExists name ok (Some e)]) ∨
     (∃ sessions, trace r = [EvSessionExists name true None;
                             EvListSessions sessions (Some e)])).
Proof.
  intros r. subst r. unfold_manager. run_manager.
  all: split; [reflexivity|]; intros info e Hret; simplify_eq.
  all: eauto.
Qed.

(** X6: when the tmuxinator probe confirms the name, [GetSessionInfo]
    returns "tmuxinator project" and never consults the config, whether
    or not a default of that name is declared. *)
Theorem GetSessionInfo_tmuxinator_project {W : Type} (m : Manager W)
    (name : string) (w : W) :
  let r := GetSessionInfo m name w in
  EvProjectExists name true None ∈ trace r →
  outcome r = Returned ("tmuxinator project", None) ∧
  ∀ n p config err, EvGetSessionConfig n p config err ∉ trace r.
Proof.
  intros r. subst r. unfold_manager. run_manager.
  all: intros Hin; in_trace.
  all: split; [reflexivity|]; intros n p config err Hc; in_trace.
Qed.

Lemma GetSessionInfo_tmuxinator_project_witness :
  outcome (GetSessionInfo
             (createTestManager [liveSession "active" 3] ["proj1"]
                [{| cfgName := "proj1"; cfgDescription := "Test default";
                    cfgDirectory := "~/dir1"; cfgTmuxinatorProject := "" |}])
             "proj1" ()) = Returned ("tmuxinator project", None).
Proof.
  apply (GetSessionInfo_tmuxinator_project
           (createTestManager [liveSession "active" 3] ["proj1"]
              [{| cfgName := "proj1"; cfgDescription := "Test default";
                  cfgDirectory := "~/dir1"; cfgTmuxinatorProject := "" |}])
           "proj1" ()).
  vm_compute. by repeat constructor.
Defined.

(** X7: when the first live check of [GoToSession] fails, it makes no
    further call and returns that error as it is (where [CreateOrSwitch]
    wraps it). *)
Theorem GoToSession_check_error {W : Type} (m : Manager W)
    (name : string) (w : W) (ok : bool) (e : GoError) :
  let r := GoToSession m name w in
  head (trace r) = Some (EvSessionExists name ok (Some e)) →
  trace r = [EvSessionExists name ok (Some e)] ∧
  outcome r = Returned (Some e).
Proof.
  intros r. subst r. unfold_manager. run_manager.
  all: intros Hhd; by simplify_eq.
Qed.

(** Two answers of a steady probe to one question are one answer. *)
Ltac steady Hse Hinst Hproj Hcfg :=
  repeat match goal with
  | H1 : TmuxClient.SessionExists ?c ?n ?w1 = (?a, _),
    H2 : TmuxClient.SessionExists ?c ?n ?w2 = (?b, _) |- _ =>
      tryif constr_eq a b then fail else
        (let Hx := fresh in
         pose proof (Hse n w1 w2) as Hx; rewrite H1, H2 in Hx;
         simpl in Hx; simplify_eq)
  | H1 : TmuxinatorClient.IsInstalled ?c ?w1 = (?a, _),
    H2 : TmuxinatorClient.IsInstalled ?c ?w2 = (?b, _) |- _ =>
      tryif constr_eq a b then fail else
        (let Hx := fresh in
         pose proof (Hinst w1 w2) as Hx; rewrite H1, H2 in Hx;
         simpl in Hx; simplify_eq)
  | H1 : TmuxinatorClient.ProjectExists ?c ?n ?w1 = (?a, _),
    H2 : TmuxinatorClient.ProjectExists ?c ?n ?w2 = (?b, _) |- _ =>
      tryif constr_eq a b then fail else
        (let Hx := fresh in
         pose proof (Hproj n w1 w2) as Hx; rewrite H1, H2 in Hx;
         simpl in Hx; simplify_eq)
  | H1 : ConfigLoader.GetSessionConfig ?c ?n ?p ?w1 = (?a, _),
    H2 : ConfigLoader.GetSessionConfig ?c ?n ?p ?w2 = (?b, _) |- _ =>
      tryif constr_eq a b then fail else
        (let Hx := fresh in
         pose proof (Hcfg n p w1 w2) as Hx; rewrite H1, H2 in Hx;
         simpl in Hx; simplify_eq)
  end.

(** X8: with ports that answer an existence question the same way
    every time, a session created by [GoToSession] is always the
    materialization of a resolved default entry, with the entry's name
    and directory: the create-fallback for unknown names is never
    reached. *)
Theorem GoToSession_creates_only_declared {W : Type} (m : Manager W)
    (name : string) (w : W) (session : Session) (err : error) :
  let r := GoToSession m name w in
  steadyProbes m →
  EvCreateSession session err ∈ trace r →
  ∃ c, EvGetSessionConfig name (platform m) (Some c) None ∈ trace r ∧
       session = plainSession (cfgName c) (cfgDirectory c).
Proof.
  intros r. subst r. unfold_manager. run_manager.
  all: intros (Hse & Hinst & Hproj & Hcfg) Hin; in_trace.
  all: try (eexists; split; [by repeat constructor|reflexivity]).
  all: steady Hse Hinst Hproj Hcfg.
Qed.

Lemma createTestManager_steady {W : Type} (tmuxSessions : list Session)
    (tmuxinatorProjects : list string) (defaultSessions : list SessionConfig) :
  steadyProbes
    (createTestManager (W := W) tmuxSessions tmuxinatorProjects defaultSessions).
Proof. by repeat split. Qed.

Lemma GoToSession_creates_only_declared_witness :
  ∃ c,
    EvGetSessionConfig "default1" "macos" (Some c) None
      ∈ trace (GoToSession
                 (createTestManager [] []
                    [{| cfgName := "default1"; cfgDescription := "";
                        cfgDirectory := "~/dir1";
                        cfgTmuxinatorProject := "" |}])
                 "default1" ()) ∧
    plainSession "default1" "~/dir1" =
      plainSession (cfgName c) (cfgDirectory c).
Proof.
  apply (GoToSession_creates_only_declared
           (createTestManager [] []
              [{| cfgName := "default1"; cfgDescription := "";
                  cfgDirectory := "~/dir1"; cfgTmuxinatorProject := "" |}])
           "default1" () (plainSession "default1" "~/dir1") None).
  - apply createTestManager_steady.
  - vm_compute. by repeat constructor.
Defined.

Lemma GoToSession_check_error_witness :
  outcome (GoToSession
             (NewManager (unreachableTmuxClient (errorString "no server"))
                (mockTmuxinatorClient
                   {| mock_projects := []; mock_isInstalled := false;
                      mock_projectExists := false; mock_startErr := None |})
                (mockConfigLoader {| mock_configs := []; mock_loadErr := None |})
                "macos")
             "work" ()) = Returned (Some (errorString "no server")).
Proof.
  apply (GoToSession_check_error
           (NewManager (unreachableTmuxClient (errorString "no server"))
              (mockTmuxinatorClient
                 {| mock_projects := []; mock_isInstalled := false;
                    mock_projectExists := false; mock_startErr := None |})
              (mockConfigLoader {| mock_configs := []; mock_loadErr := None |})
              "macos")
           "work" () false (errorString "no server")).
  reflexivity.
Defined.

(** ** The picker lines *)

Abbreviation bytes := list_ascii_of_string.

Lemma bytes_app (a b : string) : bytes (a +:+ b) = bytes a ++ bytes b.
Proof. induction a as [|c a IH]; simpl; [done|]. by rewrite <- IH. Qed.

Lemma bytes_inj (a b : string) : bytes a = bytes b → a = b.
Proof.
  intros H. rewrite <- (string_of_list_ascii_of_string a),
    <- (string_of_list_ascii_of_string b). by rewrite H.
Qed.

(** Two equal lists cut at the first occurrence of [x], or at the last,
    agree part by part. *)
Lemma app_inj_first_pivot {A} (x : A) (l1 l2 k1 k2 : list A) :
  x ∉ l1 → x ∉ k1 → l1 ++ x :: l2 = k1 ++ x :: k2 → l1 = k1 ∧ l2 = k2.
Proof.
  revert k1. induction l1 as [|a l1 IH]; intros [|b k1] Hl Hk Heq;
    simplify_eq/=; try done.
  - destruct Hk. by left.
  - destruct Hl. by left.
  - destruct (IH k1) as [-> ->]; [| |done|done].
    + intros ?. apply Hl. by right.
    + intros ?. apply Hk. by right.
Qed.

Lemma app_inj_last_pivot {A} (x : A) (l1 l2 k1 k2 : list A) :
  x ∉ l2 → x ∉ k2 → l1 ++ x :: l2 = k1 ++ x :: k2 → l1 = k1 ∧ l2 = k2.
Proof.
  intros Hl Hk Heq. apply (f_equal reverse) in Heq.
  rewrite !reverse_app, !reverse_cons, <- !app_assoc in Heq. simpl in Heq.
  apply app_inj_first_pivot in Heq as [H2 H1].
  - by apply (inj reverse) in H1, H2.
  - by rewrite elem_of_reverse.
  - by rewrite elem_of_reverse.
Qed.

Definition isDigitOrMinus (c : ascii) : Prop :=
  c ∈ bytes "-0123456789".

Lemma isDigitOrMinus_dec (c : ascii) :
  c ∈ bytes "-0123456789" → isDigitOrMinus c.
Proof. done. Qed.

Lemma NilEmpty_string_of_uint_digits (d : Decimal.uint) :
  Forall isDigitOrMinus (bytes (NilEmpty.string_of_uint d)).
Proof.
  induction d; simpl; constructor; try done;
    apply isDigitOrMinus_dec; simpl; by repeat constructor.
Qed.

Lemma string_of_uint_digits (d : Decimal.uint) :
  Forall isDigitOrMinus (bytes (NilZero.string_of_uint d)).
Proof.
  destruct d; try apply NilEmpty_string_of_uint_digits.
  constructor; [|done]. apply isDigitOrMinus_dec; simpl; by repeat constructor.
Qed.

Lemma Itoa_digits (n : Z) : Forall isDigitOrMinus (bytes (Itoa n)).
Proof.
  unfold Itoa, NilZero.string_of_int.
  destruct (Z.to_int n); simpl; [|constructor].
  - apply string_of_uint_digits.
  - unfold isDigitOrMinus; simpl; by repeat constructor.
  - apply string_of_uint_digits.
Qed.

Lemma formatWindowCount_no_paren (count : Z) :
  "("%char ∉ bytes (formatWindowCount count).
Proof.
  unfold formatWindowCount. case_bool_decide.
  - simpl. intros Hin. by repeat (apply elem_of_cons in Hin as [?|Hin]; [done|]);
      apply elem_of_nil in Hin.
  - rewrite bytes_app, elem_of_app. intros [Hin|Hin].
    + pose proof (Itoa_digits count) as Hd. rewrite Forall_forall in Hd.
      apply Hd in Hin. unfold isDigitOrMinus in Hin. simpl in Hin.
      by repeat (apply elem_of_cons in Hin as [?|Hin]; [done|]);
        apply elem_of_nil in Hin.
    + simpl in Hin.
      by repeat (apply elem_of_cons in Hin as [?|Hin]; [done|]);
        apply elem_of_nil in Hin.
Qed.

Ltac not_in_bytes Hin :=
  simpl in Hin;
  by repeat (apply elem_of_cons in Hin as [?|Hin]; [done|]);
    apply elem_of_nil in Hin.

(** Either the type is none of the three known and the line shows the
    bare name, or the name is followed by " (" and a text without a
    further opening parenthesis. *)
Lemma DisplayInfo_bytes (s : Session) :
  (Icon s = " " ∧ DisplayInfo s = Name s) ∨
  (Icon s ≠ " " ∧
   ∃ rest, bytes (DisplayInfo s) =
             bytes (Name s) ++ " "%char :: "("%char :: rest ∧
           "("%char ∉ rest).
Proof.
  unfold DisplayInfo, Icon. repeat case_bool_decide; [right..|left]; try done.
  all: split; [done|]; eexists; rewrite !bytes_app; split; [done|].
  - rewrite elem_of_app. intros [Hin|Hin].
    + by apply formatWindowCount_no_paren in Hin.
    + not_in_bytes Hin.
  - intros Hin. not_in_bytes Hin.
  - intros Hin. not_in_bytes Hin.
Qed.

Lemma displayText_parts (a b : Session) :
  displayText a = displayText b →
  Icon a = Icon b ∧ DisplayInfo a = DisplayInfo b.
Proof.
  unfold displayText. intros H%(f_equal bytes). rewrite !bytes_app in H.
  unfold Icon in *.
  repeat case_bool_decide; simpl in H; simplify_eq; split; try done;
    by apply bytes_inj.
Qed.

Lemma displayText_Name (a b : Session) :
  displayText a = displayText b → Name a = Name b.
Proof.
  intros [Hicon Hinfo]%displayText_parts.
  destruct (DisplayInfo_bytes a) as [[Ia Ha]|[Ia (ra & Ha & Hra)]],
    (DisplayInfo_bytes b) as [[Ib Hb]|[Ib (rb & Hb & Hrb)]];
    try congruence.
  apply bytes_inj. rewrite Hinfo, Hb in Ha.
  rewrite !(cons_middle " "%char), !app_assoc in Ha.
  apply app_inj_last_pivot in Ha as [Ha _]; [|done..].
  by apply (inj (.++ [" "%char])) in Ha.
Qed.

(** X9: the line the picker shows for a session determines the name of
    the session, whatever the types and window counts: two sessions with
    the same line have the same name. *)
Theorem displayText_determines_name (a b : Session) :
  displayText a = displayText b → Name a = Name b.
Proof. apply displayText_Name. Qed.

Lemma displayText_determines_name_witness :
  Name (liveSession "work" 2) = Name (plainSession "work" "/tmp").
Proof.
  apply (displayText_determines_name (liveSession "work" 2)
           {| Name := "work"; Type_ := SessionTypeTmux; WindowCount := 2;
              Directory := "/tmp"; Description := ""; IsActive := false;
              TmuxinatorProject := ""; CreatedAt := 7 |}).
  reflexivity.
Defined.

Lemma addOption_options (sessions : list Session)
    (acc : list string * gmap string string) :
  (foldl addOption acc sessions).1 = acc.1 ++ (displayText <$> sessions).
Proof.
  revert acc. induction sessions as [|s sessions IH]; intros [options sm];
    simpl; [by rewrite app_nil_r|].
  rewrite IH. simpl. by rewrite <- app_assoc.
Qed.

(** The map built by the loop sends the line of each session to a name
    some session of that line has. *)
Lemma addOption_lookup (sessions : list Session)
    (acc : list string * gmap string string) (sess : Session) :
  sess ∈ sessions →
  ∃ sess', sess' ∈ sessions ∧ displayText sess' = displayText sess ∧
    (foldl addOption acc sessions).2 !! displayText sess = Some (Name sess').
Proof.
  revert acc. induction sessions as [|s sessions IH] using rev_ind;
    intros acc Hin; [by apply elem_of_nil in Hin|].
  rewrite foldl_snoc. destruct (foldl addOption acc sessions) as [options sm] eqn:Hacc.
  simpl. destruct (decide (displayText s = displayText sess)) as [Heq|Hne].
  - exists s. rewrite Heq, lookup_insert_eq. split_and!; [|done..].
    rewrite elem_of_app, list_elem_of_singleton. by right.
  - rewrite lookup_insert_ne by done.
    apply elem_of_app in Hin as [Hin|Hin%list_elem_of_singleton]; [|by subst].
    destruct (IH acc Hin) as (s' & ? & ? & Hl). rewrite Hacc in Hl.
    exists s'. rewrite elem_of_app. auto.
Qed.

(** X10: in the picker of [showInteractiveList], looking up the line of
    any listed session in the map of lines yields the name of that
    session, and no line of a session is the "+ Create New Session"
    option. *)
Theorem pickerOptions_round_trip (sessions : list Session) (sess : Session) :
  sess ∈ sessions →
  sessionMap_get (pickerOptions sessions).2 (displayText sess) = Name sess ∧
  displayText sess ∈ (pickerOptions sessions).1 ∧
  displayText sess ≠ "+ Create New Session".
Proof.
  intros Hin. unfold pickerOptions, sessionMap_get.
  destruct (addOption_lookup sessions ([], ∅) sess Hin)
    as (s' & _ & Heq & Hl).
  destruct (foldl addOption ([], ∅) sessions) as [options sm] eqn:Hacc.
  simpl in *. rewrite Hl. simpl. split_and!.
  - by apply displayText_Name.
  - pose proof (addOption_options sessions ([], ∅)) as Ho.
    rewrite Hacc in Ho. simpl in Ho. rewrite Ho, elem_of_app. left.
    apply list_elem_of_fmap. by exists sess.
  - unfold displayText, Icon. intros H%(f_equal bytes).
    rewrite !bytes_app in H. repeat case_bool_decide; by simplify_eq/=.
Qed.

Lemma pickerOptions_round_trip_witness :
  sessionMap_get
    (pickerOptions [liveSession "work" 2; tmuxinatorSession "blog"]).2
    (displayText (tmuxinatorSession "blog")) = "blog".
Proof.
  apply (pickerOptions_round_trip
           [liveSession "work" 2; tmuxinatorSession "blog"]
           (tmuxinatorSession "blog")).
  by repeat constructor.
Defined.

(** ** The config loader *)

Ltac unfold_io :=
  unfold result, syscalls, run, combinedOutput, lookPath, getenv, expandEnv,
    readFile, userHomeDir, now, printf, syscall, io_bind, io_ret.

(** Name the answer of the next call on the outside. *)
Ltac os_answer :=
  match goal with
  | |- context [exec_Run ?o ?c ?w] =>
      destruct (exec_Run o c w) as [[?|] ?] eqn:?
  | |- context [exec_CombinedOutput ?o ?c ?w] =>
      destruct (exec_CombinedOutput o c w) as [[? [?|]] ?] eqn:?
  | |- context [exec_LookPath ?o ?f ?w] =>
      destruct (exec_LookPath o f w) as [[? [?|]] ?] eqn:?
  | |- context [os_Getenv ?o ?k ?w] =>
      destruct (os_Getenv o k w) as [? ?] eqn:?
  | |- context [os_ExpandEnv ?o ?k ?w] =>
      destruct (os_ExpandEnv o k w) as [? ?] eqn:?
  | |- context [os_ReadFile ?o ?p ?w] =>
      destruct (os_ReadFile o p w) as [[? [?|]] ?] eqn:?
  | |- context [os_UserHomeDir ?o ?w] =>
      destruct (os_UserHomeDir o w) as [[? ?] ?] eqn:?
  | |- context [time_Now ?o ?w] =>
      destruct (time_Now o w) as [? ?] eqn:?
  | |- context [fmt_Printf ?o ?t ?w] =>
      destruct (fmt_Printf o t w) as [? ?] eqn:?
  | |- context [yaml_Unmarshal ?o ?d] =>
      destruct (yaml_Unmarshal o d) as [? [?|]] eqn:?
  end.

Ltac run_os := repeat (cbn; first [os_answer | case_bool_decide]); cbn.

Lemma strings_Replace1_prefix (rest new : string) :
  strings_Replace1 (String "~" rest) "~" new = new +:+ rest.
Proof. reflexivity. Qed.

Lemma strings_HasPrefix_tilde (s : string) :
  strings_HasPrefix s "~" = true ↔ ∃ rest, s = String "~" rest.
Proof.
  destruct s as [|c rest]; cbn [strings_HasPrefix].
  - split; [done|]. by intros [? ?].
  - rewrite andb_true_r. destruct (Ascii.eqb_spec "~" c) as [<-|Hne].
    + split; [by eexists|done].
    + split; [done|]. intros [? [= ? ?]]. by subst.
Qed.

(** What the loop does to one entry. *)
Definition expanded (home : string) (parsed c : SessionConfig) : Prop :=
  cfgName c = cfgName parsed ∧
  cfgDescription c = cfgDescription parsed ∧
  cfgTmuxinatorProject c = cfgTmuxinatorProject parsed ∧
  match cfgDirectory parsed with
  | String "~" rest => cfgDirectory c = home +:+ rest
  | directory => cfgDirectory c = directory
  end.

Lemma expandHome_expanded (home : string) (c : SessionConfig) :
  expanded home c (expandHome home c).
Proof.
  unfold expanded, expandHome.
  destruct (strings_HasPrefix (cfgDirectory c) "~") eqn:Hp.
  - apply strings_HasPrefix_tilde in Hp as [rest Hrest]. simpl.
    rewrite Hrest. by rewrite strings_Replace1_prefix.
  - split_and!; try done.
    destruct (cfgDirectory c) as [|a rest] eqn:Hd; [done|].
    destruct (decide (a = "~"%char)) as [->|Hne].
    + rewrite (proj2 (strings_HasPrefix_tilde _)) in Hp; [done|by eexists].
    + destruct a as [[] [] [] [] [] [] [] []]; done.
Qed.

Section LoaderFacts.
Context {W : Type} (os : OS W) (l : Loader).

(** X11: when [LoadDefaultSessions] succeeds, it has read the file
    "sessions-<platform>.yml" of the config directory, and it returns
    the parsed entries in their order, each with its name, description
    and tmuxinator project unchanged; a directory that begins with "~"
    has that one character replaced by the home directory the system
    reported, and any other directory is returned as it is. *)
Theorem Loader_LoadDefaultSessions_expands (platform : string) (w : W)
    (configs : list SessionConfig) :
  let r := Loader_LoadDefaultSessions os l platform w in
  result r = (configs, None) →
  ∃ data parsed home homeErr,
    syscalls r =
      [SysReadFile
         (filepath_Join os
            [configDir l; "sessions-" +:+ platform +:+ ".yml"]) data None;
       SysUserHomeDir home homeErr] ∧
    yaml_Unmarshal os data = (parsed, None) ∧
    Forall2 (expanded home) parsed configs.
Proof.
  intros r. subst r. unfold Loader_LoadDefaultSessions. unfold_io. run_os.
  all: intros [= <-]. 
  do 4 eexists. split_and!; [done..|].
  apply Forall2_fmap_r, Forall_Forall2_diag, Forall_forall.
  intros c _. apply expandHome_expanded.
Qed.

(** X12: when [LoadDefaultSessions] fails, it returns no entry; the error
    wraps the cause, which is either the error of reading the file or
    the error of parsing it, and the home directory is not asked for. *)
Theorem Loader_LoadDefaultSessions_failure (platform : string) (w : W)
    (configs : list SessionConfig) (e : GoError) :
  let r := Loader_LoadDefaultSessions os l platform w in
  let path := filepath_Join os
                [configDir l; "sessions-" +:+ platform +:+ ".yml"] in
  result r = (configs, Some e) →
  configs = [] ∧
  ∃ data cause,
    (syscalls r = [SysReadFile path data (Some cause)] ∧
     e = wrapError ("failed to read config file " +:+ path +:+ ": "
                    +:+ Error cause) cause) ∨
    (syscalls r = [SysReadFile path data None] ∧
     (yaml_Unmarshal os data).2 = Some cause ∧
     e = wrapError ("failed to parse YAML: " +:+ Error cause) cause).
Proof.
  intros r path. subst r path. unfold Loader_LoadDefaultSessions.
  unfold_io. run_os.
  all: intros Hr; simplify_eq.
  all: split; [done|]; do 2 eexists.
  - by left.
  - right. split_and!; [done| |done].
    match goal with H : yaml_Unmarshal _ _ = _ |- _ => by rewrite H end.
Qed.

(** X13: [GetSessionConfig] answers either with an entry and no error,
    and then the entry carries the requested name, or with no entry and
    an error; it never answers with neither. *)
Theorem Loader_GetSessionConfig_contract (name platform : string) (w : W) :
  let r := result (Loader_GetSessionConfig os l name platform w) in
  (∃ c, r = (Some c, None) ∧ cfgName c = name) ∨
  (∃ e, r = (None, Some e)).
Proof.
  intros r. subst r. unfold Loader_GetSessionConfig, result, io_bind, io_ret.
  destruct (Loader_LoadDefaultSessions os l platform w)
    as [[[sessions [e|]] w1] t1]; cbn.
  - right. by eexists.
  - destruct (find _ sessions) as [c|] eqn:Hfind; cbn.
    + left. exists c. split; [done|].
      by apply find_some in Hfind as [_ ?%bool_decide_eq_true].
    + right. by eexists.
Qed.

End LoaderFacts.

Lemma Loader_LoadDefaultSessions_expands_witness :
  result (Loader_LoadDefaultSessions (fakeOS deskSystem)
            {| configDir := "/home/u/.config/sess" |} "macos" ()) =
    ([{| cfgName := "notes"; cfgDescription := "Notes";
         cfgDirectory := "/home/u/notes"; cfgTmuxinatorProject := "" |}],
     None) ∧
  ∃ data parsed home homeErr,
    syscalls (Loader_LoadDefaultSessions (fakeOS deskSystem)
                {| configDir := "/home/u/.config/sess" |} "macos" ()) =
      [SysReadFile
         (filepath_Join (fakeOS deskSystem)
            ["/home/u/.config/sess"; "sessions-" +:+ "macos" +:+ ".yml"])
         data None;
       SysUserHomeDir home homeErr] ∧
    yaml_Unmarshal (fakeOS deskSystem) data = (parsed, None) ∧
    Forall2 (expanded home) parsed
      [{| cfgName := "notes"; cfgDescription := "Notes";
          cfgDirectory := "/home/u/notes"; cfgTmuxinatorProject := "" |}].
Proof.
  split; [reflexivity|].
  apply (Loader_LoadDefaultSessions_expands (fakeOS deskSystem)
           {| configDir := "/home/u/.config/sess" |} "macos" ()).
  reflexivity.
Defined.

Lemma Loader_LoadDefaultSessions_failure_witness :
  ([] : list SessionConfig) = [] ∧
  ∃ data cause,
    (syscalls (Loader_LoadDefaultSessions (fakeOS deskSystem)
                 {| configDir := "/home/u/.config/sess" |} "wsl" ()) =
       [SysReadFile "/home/u/.config/sess/sessions-wsl.yml" data (Some cause)] ∧
     wrapError
       "failed to read config file /home/u/.config/sess/sessions-wsl.yml: no such file or directory"
       (errorString "no such file or directory") =
     wrapError ("failed to read config file "
                +:+ "/home/u/.config/sess/sessions-wsl.yml" +:+ ": "
                +:+ Error cause) cause) ∨
    (syscalls (Loader_LoadDefaultSessions (fakeOS deskSystem)
                 {| configDir := "/home/u/.config/sess" |} "wsl" ()) =
       [SysReadFile "/home/u/.config/sess/sessions-wsl.yml" data None] ∧
     (yaml_Unmarshal (fakeOS deskSystem) data).2 = Some cause ∧
     wrapError
       "failed to read config file /home/u/.config/sess/sessions-wsl.yml: no such file or directory"
       (errorString "no such file or directory") =
     wrapError ("failed to parse YAML: " +:+ Error cause) cause).
Proof.
  apply (Loader_LoadDefaultSessions_failure (fakeOS deskSystem)
           {| configDir := "/home/u/.config/sess" |} "wsl" () []
           (wrapError
              "failed to read config file /home/u/.config/sess/sessions-wsl.yml: no such file or directory"
              (errorString "no such file or directory"))).
  reflexivity.
Defined.

(** ** Go's strings: facts *)

Lemma string_app_nil (s : string) : "" +:+ s = s.
Proof. reflexivity. Qed.

Lemma string_app_cons (c : ascii) (a s : string) :
  String c a +:+ s = String c (a +:+ s).
Proof. reflexivity. Qed.

Lemma strings_Split_nonempty (s : string) (sep : ascii) :
  strings_Split s sep ≠ [].
Proof.
  destruct s as [|c rest]; simpl; [done|].
  destruct (Ascii.eqb c sep); [done|]. by destruct (strings_Split rest sep).
Qed.

(** No piece holds the separator. *)
Lemma strings_Split_no_sep (s : string) (sep : ascii) :
  Forall (λ piece, sep ∉ bytes piece) (strings_Split s sep).
Proof.
  induction s as [|c rest IH]; simpl.
  - constructor; [|done]. by intros ?%elem_of_nil.
  - destruct (Ascii.eqb_spec c sep) as [->|Hne].
    + constructor; [|done]. by intros ?%elem_of_nil.
    + destruct (strings_Split rest sep) as [|piece pieces]; simpl.
      * constructor; [|done]. simpl. intros [?|?%elem_of_nil]%elem_of_cons; by subst.
      * apply Forall_cons in IH as [Hp Hps]. constructor; [|done]. simpl.
        intros [?|?]%elem_of_cons; by subst.
Qed.

(** A string without the separator is its own single piece, and a
    separator after such a string starts the next piece. *)
Lemma strings_Split_piece (a rest : string) (sep : ascii) :
  sep ∉ bytes a →
  strings_Split (a +:+ (String sep rest)) sep = a :: strings_Split rest sep.
Proof.
  induction a as [|c a IH]; intros Ha.
  - rewrite string_app_nil. simpl. by rewrite Ascii.eqb_refl.
  - apply not_elem_of_cons in Ha as [Hc Ha].
    rewrite string_app_cons. simpl.
    destruct (Ascii.eqb_spec c sep) as [->|_]; [done|].
    by rewrite (IH Ha).
Qed.

Lemma strings_Split_single (a : string) (sep : ascii) :
  sep ∉ bytes a → strings_Split a sep = [a].
Proof.
  induction a as [|c a IH]; simpl; intros Ha; [done|].
  apply not_elem_of_cons in Ha as [Hc Ha].
  destruct (Ascii.eqb_spec c sep) as [->|_]; [done|].
  by rewrite (IH Ha).
Qed.

Lemma strings_Split_two (a b : string) (sep : ascii) :
  sep ∉ bytes a → sep ∉ bytes b →
  strings_Split (a +:+ (String sep b)) sep = [a; b].
Proof.
  intros Ha Hb. by rewrite strings_Split_piece, strings_Split_single.
Qed.

Lemma strings_Split_single_inv (s b : string) (sep : ascii) :
  strings_Split s sep = [b] → s = b.
Proof.
  revert b. induction s as [|c rest IH]; intros b; simpl; [congruence|].
  destruct (Ascii.eqb c sep).
  - intros [= _ Hrest]. by apply strings_Split_nonempty in Hrest.
  - destruct (strings_Split rest sep) as [|piece pieces] eqn:Hr.
    + by apply strings_Split_nonempty in Hr.
    + intros [= <- ->]. f_equal. by apply IH.
Qed.

Lemma strings_Split_two_inv (s a b : string) (sep : ascii) :
  strings_Split s sep = [a; b] →
  s = a +:+ (String sep b) ∧ (sep ∉ bytes a) ∧ (sep ∉ bytes b).
Proof.
  intros Hs. pose proof (strings_Split_no_sep s sep) as Hno.
  rewrite Hs in Hno. apply Forall_cons in Hno as [Ha Hb].
  apply Forall_cons in Hb as [Hb _]. split; [|done].
  clear Ha Hb. revert a Hs.
  induction s as [|c rest IH]; intros a; simpl; [done|].
  destruct (Ascii.eqb_spec c sep) as [->|Hne].
  - intros [= <- Hrest]. rewrite string_app_nil. f_equal.
    by apply strings_Split_single_inv in Hrest.
  - destruct (strings_Split rest sep) as [|piece pieces] eqn:Hr; [done|].
    intros [= <- ->]. rewrite string_app_cons. f_equal. by apply IH.
Qed.

(** ** The tmux client *)

Ltac unfold_client :=
  unfold Client_ListSessions, Client_CreateSession, Client_DeleteSession,
    Client_SwitchToLastSession, Client_ReloadConfig, Client_SessionExists,
    Client_SwitchToSession, Client_AttachToSession, Client_IsInsideTmux,
    Tmuxinator_ProjectExists, Tmuxinator_ListProjects,
    Tmuxinator_StartProject, Tmuxinator_IsInstalled,
    Client_SwitchToSession.

Section ClientFacts.
Context {W : Type} (os : OS W).

(** One round of the loop of [ListSessions]; the test for an empty line
    is subsumed by the test on the number of pieces. *)
Lemma parseSessionLines_cons (line : string) (lines : list string)
    (acc : list Session) (w : W) :
  parseSessionLines os (line :: lines) acc w =
  match strings_Split line ":" with
  | [name; count] =>
      match time_Now os w with
      | (t, w1) =>
          match parseSessionLines os lines
                  (acc ++ [activeSession name (default 0 (strconv_Atoi count)) t])
                  w1 with
          | (res, w2, log) => (res, w2, SysNow t :: log)
          end
      end
  | _ => parseSessionLines os lines acc w
  end.
Proof.
  cbn [parseSessionLines]. case_bool_decide as Hempty; [by subst|].
  destruct (strings_Split line ":") as [|name [|count [|]]]; try done.
  unfold io_bind, now, syscall. destruct (time_Now os w) as [t w1].
  by destruct (parseSessionLines os lines _ w1) as [[res w2] log].
Qed.

(** What the loop of [ListSessions] appends: one record per line of
    exactly two pieces, stamped with the clock, and nothing else. *)
Lemma parseSessionLines_spec (lines : list string) (acc : list Session) (w : W) :
  let r := parseSessionLines os lines acc w in
  ∃ new,
    result r = acc ++ new ∧
    syscalls r = SysNow <$> (CreatedAt <$> new) ∧
    Forall (λ s, ∃ line name count,
              line ∈ lines ∧ strings_Split line ":" = [name; count] ∧
              s = activeSession name (default 0 (strconv_Atoi count))
                    (CreatedAt s)) new ∧
    (∀ line name count,
       line ∈ lines → strings_Split line ":" = [name; count] →
       ∃ s, s ∈ new ∧ Name s = name ∧
            WindowCount s = default 0 (strconv_Atoi count)).
Proof.
  revert acc w. induction lines as [|line lines IH]; intros acc w.
  - exists []. cbn. rewrite app_nil_r. split_and!; [done..|].
    by intros ? ? ? ?%elem_of_nil.
  - cbv zeta. rewrite parseSessionLines_cons.
    destruct (strings_Split line ":") as [|name [|count [|]]] eqn:Hsplit.
    3: {
      destruct (time_Now os w) as [t w1].
      destruct (IH (acc ++ [activeSession name (default 0 (strconv_Atoi count)) t]) w1)
        as (new & Hres & Hsys & Hs & Hc).
      destruct (parseSessionLines os lines _ w1) as [[res w2] log].
      unfold result, syscalls in *. simpl in *.
      exists (activeSession name (default 0 (strconv_Atoi count)) t :: new).
      split_and!.
      + by rewrite Hres, <- app_assoc.
      + by rewrite Hsys.
      + constructor.
        * exists line, name, count. split_and!; [by left|done..].
        * eapply Forall_impl; [exact Hs|]. intros s (l0 & n & c & ? & ? & ?).
          exists l0, n, c. split_and!; [by right|done..].
      + intros l0 n c [->|Hin]%elem_of_cons Hl0.
        * rewrite Hsplit in Hl0. injection Hl0 as <- <-.
          eexists. split; [by left|done].
        * destruct (Hc l0 n c Hin Hl0) as (s & ? & ? & ?).
          exists s. split; [by right|done]. }
    all: destruct (IH acc w) as (new & ? & ? & Hs & Hc);
      exists new; split_and!; [done..| |];
      [ eapply Forall_impl; [exact Hs|]; intros s0 (l0 & n & c & ? & ? & ?);
        exists l0, n, c; split_and!; [by right|done..]
      | intros l0 n c [->|?]%elem_of_cons Hl0; [congruence|eauto] ].
Qed.
(** X14: [ListSessions] never returns an error.  When the tmux command
    fails it returns no session and asks nothing else.  Otherwise every
    record it returns is of type [tmux] and active, and comes from a line
    "<name>:<count>" of the trimmed output with no colon in the name or
    the count, its window count being the count parsed as a decimal
    integer, or 0 when it does not parse; and every such line yields a
    record.  A line with no colon or with more than one is passed over,
    so a session whose name holds a colon is never listed. *)
Theorem Client_ListSessions_lines (w : W) :
  let r := Client_ListSessions os w in
  let cmd := exec_Command ["tmux"; "list-sessions"; "-F";
                           "#{session_name}:#{session_windows}"] in
  ∃ output err,
    head (syscalls r) = Some (SysCombinedOutput cmd output err) ∧
    (result r).2 = None ∧
    match err with
    | Some _ =>
        (result r).1 = [] ∧ syscalls r = [SysCombinedOutput cmd output err]
    | None =>
        let lines := strings_Split (strings_TrimSpace output) "010" in
        Forall (λ s,
                  Type_ s = SessionTypeTmux ∧ IsActive s = true ∧
                  ∃ count,
                    (Name s +:+ (String ":" count)) ∈ lines ∧
                    (":"%char ∉ bytes (Name s)) ∧ (":"%char ∉ bytes count) ∧
                    WindowCount s = default 0 (strconv_Atoi count))
          (result r).1 ∧
        (∀ name count,
           (":"%char ∉ bytes name) → (":"%char ∉ bytes count) →
           (name +:+ (String ":" count)) ∈ lines →
           ∃ s, s ∈ (result r).1 ∧ Name s = name ∧
                WindowCount s = default 0 (strconv_Atoi count))
    end.
Proof.
  intros r cmd. subst r cmd. unfold Client_ListSessions. unfold_io.
  destruct (exec_CombinedOutput os _ w) as [[output [e|]] w1] eqn:Hout; cbn.
  - exists output, (Some e). by split_and!.
  - destruct (parseSessionLines_spec
                (strings_Split (strings_TrimSpace output) "010") [] w1)
      as (new & Hres & _ & Hs & Hc).
    destruct (parseSessionLines os _ [] w1) as [[res w2] log].
    unfold result in *. simpl in *. subst res.
    exists output, None. split_and!; [done..| |].
    + eapply Forall_impl; [exact Hs|].
      intros s (line & name & count & Hin & Hsplit & ->). simpl.
      apply strings_Split_two_inv in Hsplit as (-> & ? & ?).
      split_and!; [done..|]. by exists count.
    + intros name count Hn Hc' Hin.
      apply (Hc _ name count Hin). by apply strings_Split_two.
Qed.

(** X15: [CreateSession] asks whether it runs inside tmux and then runs
    exactly one new-session command, naming the session with -s and
    carrying -c with the directory exactly when the directory is not
    empty.  Inside tmux the session is created detached, a failure is
    returned wrapped, and only after a success the client is switched to
    the session; outside tmux the command gets the terminal and its
    result is returned as it is. *)
Theorem Client_CreateSession_commands (sess : Session) (w : W) :
  let r := Client_CreateSession os sess w in
  let directory :=
    if bool_decide (Directory sess ≠ "") then ["-c"; Directory sess] else [] in
  ∃ tmux createErr,
    if bool_decide (tmux ≠ "") then
      let create := exec_Command (["tmux"; "new-session"; "-d"; "-s"; Name sess]
                                  ++ directory) in
      match createErr with
      | Some e =>
          syscalls r = [SysGetenv "TMUX" tmux; SysRun create (Some e)] ∧
          result r =
            Some (wrapError ("failed to create session: " +:+ Error e) e)
      | None =>
          ∃ switchErr,
            syscalls r =
              [SysGetenv "TMUX" tmux; SysRun create None;
               SysRun (exec_Command ["tmux"; "switch-client"; "-t"; Name sess])
                 switchErr] ∧
            result r = switchErr
      end
    else
      syscalls r =
        [SysGetenv "TMUX" tmux;
         SysRun (exec_CommandStdio (["tmux"; "new-session"; "-s"; Name sess]
                                    ++ directory)) createErr] ∧
      result r = createErr.
Proof.
  intros r directory. subst r directory. unfold_client. unfold_io.
  destruct (os_Getenv os "TMUX" w) as [tmux w1] eqn:Henv. cbn.
  case_bool_decide as Htmux; case_bool_decide as Hdir; cbn.
  all: match goal with
       | |- context [exec_Run os ?c ?w'] =>
           destruct (exec_Run os c w') as [[e|] w2] eqn:Hrun
       end; cbn.
  all: try match goal with
       | |- context [exec_Run os ?c ?w'] =>
           destruct (exec_Run os c w') as [switchErr w3] eqn:Hswitch; cbn
       end.
  all: first [ exists tmux, (Some e) | exists tmux, None ].
  all: case_bool_decide; try done; eauto.
Qed.

(** X16: [DeleteSession] first asks tmux whether the session exists.  If
    not, it returns "session '<name>' does not exist" and runs no
    kill-session command; if so, it runs one kill-session command and
    returns nil on success and the wrapped failure otherwise. *)
Theorem Client_DeleteSession_guarded (name : string) (w : W) :
  let r := Client_DeleteSession os name w in
  let has := exec_Command ["tmux"; "has-session"; "-t"; name] in
  let kill := exec_Command ["tmux"; "kill-session"; "-t"; name] in
  (∃ e, syscalls r = [SysRun has (Some e)] ∧
        result r =
          Some (errorString ("session '" +:+ name +:+ "' does not exist"))) ∨
  (∃ killErr, syscalls r = [SysRun has None; SysRun kill killErr] ∧
     result r = match killErr with
                | Some e => Some (wrapError ("failed to delete session: "
                                             +:+ Error e) e)
                | None => None
                end).
Proof.
  intros r has kill. subst r has kill. unfold_client. unfold_io. run_os.
  all: eauto.
Qed.

Lemma Client_ListSessions_no_error (w : W) :
  (result (Client_ListSessions os w)).2 = None.
Proof.
  unfold Client_ListSessions. unfold_io.
  destruct (exec_CombinedOutput os _ w) as [[output [e|]] w1]; cbn; [done|].
  by destruct (parseSessionLines os _ [] w1) as [[res w2] log].
Qed.

(** The loop of [ReloadConfig] reloads the sessions in order and stops
    at the first failure. *)
Lemma reloadSessions_spec (configPath : string) (sessions : list Session)
    (w : W) :
  let r := reloadSessions os configPath sessions w in
  (result r = None ∧ syscalls r = flat_map (reloaded configPath) sessions) ∨
  (∃ before bad after e,
     sessions = before ++ bad :: after ∧
     syscalls r = flat_map (reloaded configPath) before ++
                  [SysRun (sourceFile configPath bad) (Some e)] ∧
     result r = Some (wrapError ("failed to reload config for session "
                                 +:+ Name bad +:+ ": " +:+ Error e) e)).
Proof.
  revert w. induction sessions as [|sess sessions IH]; intros w; cbn.
  - by left.
  - unfold_io. fold (sourceFile configPath sess).
    destruct (exec_Run os (sourceFile configPath sess) w) as [[e|] w1]; cbn.
    + right. by exists [], sess, sessions, e.
    + destruct (fmt_Printf os _ w1) as [[] w2]. cbn.
      specialize (IH w2). 
      destruct (reloadSessions os configPath sessions w2) as [[res w3] log].
      unfold result, syscalls in *. simpl in *.
      destruct IH as [[-> ->]|(before & bad & after & e & -> & -> & ->)].
      * by left.
      * right. by exists (sess :: before), bad, after, e.
Qed.

(** X17: [ReloadConfig] lists the sessions and, when there is none,
    returns "no active tmux sessions" without reloading anything.
    Otherwise it expands the path of the tmux configuration once and
    runs one source-file command per session, in the order of the
    listing, printing a line after each success; it stops at the first
    command that fails, returning that failure wrapped with the name of
    the session, and returns nil when all succeeded. *)
Theorem Client_ReloadConfig_in_order (w : W) :
  let r := Client_ReloadConfig os w in
  let listing := Client_ListSessions os w in
  let sessions := (result listing).1 in
  if bool_decide (sessions = []) then
    syscalls r = syscalls listing ∧
    result r = Some (errorString "no active tmux sessions")
  else
    ∃ configPath,
      let head := syscalls listing ++
                  [SysExpandEnv "$HOME/.config/tmux/tmux.conf" configPath] in
      (result r = None ∧
       syscalls r = head ++ flat_map (reloaded configPath) sessions) ∨
      (∃ before bad after e,
         sessions = before ++ bad :: after ∧
         syscalls r = head ++ flat_map (reloaded configPath) before ++
                      [SysRun (sourceFile configPath bad) (Some e)] ∧
         result r = Some (wrapError ("failed to reload config for session "
                                     +:+ Name bad +:+ ": " +:+ Error e) e)).
Proof.
  intros r listing sessions. subst r listing sessions.
  pose proof (Client_ListSessions_no_error w) as Hnil.
  unfold Client_ReloadConfig, io_bind, io_ret, expandEnv, syscall.
  destruct (Client_ListSessions os w) as [[[sessions err] w1] log].
  unfold result, syscalls in *. simpl in *. subst err.
  case_bool_decide as Hnone; case_bool_decide as Hlen; cbn.
  - by rewrite app_nil_r.
  - by subst.
  - by destruct sessions.
  - destruct (os_ExpandEnv os _ w1) as [configPath w2]. cbn.
    exists configPath.
    pose proof (reloadSessions_spec configPath sessions w2) as Hloop.
    destruct (reloadSessions os configPath sessions w2) as [[res w3] log'].
    unfold result, syscalls in *. simpl in *.
    destruct Hloop as [[-> ->]|(before & bad & after & e & -> & -> & ->)].
    + left. by rewrite <- app_assoc.
    + right. exists before, bad, after, e. by rewrite <- !app_assoc.
Qed.

End ClientFacts.

(** ** The tmuxinator client *)

Lemma spaceAhead_0 (skip : nat) (c : ascii) (rest : string) :
  spaceAhead skip (String c rest) = 0%nat → isAsciiSpace c = false.
Proof.
  destruct skip; [|done]. unfold spaceAhead, spaceWidth.
  by destruct (isAsciiSpace c).
Qed.

(** A field is not empty and holds no ASCII space. *)
Lemma fieldsFrom_fields (skip : nat) (s : string) :
  Forall (λ field, field ≠ "" ∧
                   Forall (λ c, isAsciiSpace c = false) (bytes field))
    (fieldsFrom skip s).2.
Proof.
  revert skip. induction s as [|c rest IH]; intros skip; [constructor|].
  cbn [fieldsFrom]. destruct (spaceAhead skip (String c rest)) eqn:Hahead.
  - apply spaceAhead_0 in Hahead. specialize (IH 0%nat).
    destruct (fieldsFrom 0 rest) as [[] [|field fields]]; simpl in *.
    + repeat constructor; done.
    + apply Forall_cons in IH as [[_ Hf] Hfs].
      constructor; [|done]. split; [done|]. simpl. by constructor.
    + repeat constructor; done.
    + constructor; [|done]. split; [done|]. simpl. by repeat constructor.
  - apply IH.
Qed.

Section TmuxinatorFacts.
Context {W : Type} (os : OS W).

(** X18: [ListProjects] never returns an error.  It runs tmuxinator list
    only when tmuxinator is found on the path, and returns no project
    when it is not found, when the command fails, or when the trimmed
    output has a single line.  No project it returns is empty or holds a
    space, a tab or a line break. *)
Theorem Tmuxinator_ListProjects_words (w : W) :
  let r := Tmuxinator_ListProjects os w in
  let list := exec_Command ["tmuxinator"; "list"] in
  (result r).2 = None ∧
  Forall (λ project, project ≠ "" ∧
                     Forall (λ c, isAsciiSpace c = false) (bytes project))
    (result r).1 ∧
  ∃ path found,
    head (syscalls r) = Some (SysLookPath "tmuxinator" path found) ∧
    match found with
    | Some _ =>
        syscalls r = [SysLookPath "tmuxinator" path found] ∧
        (result r).1 = []
    | None =>
        ∃ output err,
          syscalls r = [SysLookPath "tmuxinator" path None;
                        SysCombinedOutput list output err] ∧
          (err ≠ None ∨
           "010"%char ∉ bytes (strings_TrimSpace output) →
           (result r).1 = [])
    end.
Proof.
  intros r list. subst r list. unfold_client. unfold_io. run_os.
  all: try match goal with
       | |- context [(?a <=? ?b)%nat] =>
           destruct (a <=? b)%nat eqn:Hlen; cbn
       end.
  all: split; [done|]; split.
  all: try (by constructor).
  all: try (eexists _, (Some _); by split).
  all: try (eexists _, None; split; [done|]; do 2 eexists; split; [done|];
            by intros [?|?]).
  - unfold projectsOfLines. apply Forall_flat_map, Forall_forall.
    intros line _. apply Forall_forall. intros p Hp%list_elem_of_In.
    apply filter_In in Hp as [Hp%list_elem_of_In _].
    pose proof (fieldsFrom_fields 0 line) as Hf.
    rewrite Forall_forall in Hf. by apply Hf.
  - eexists _, None. split; [done|]. do 2 eexists. split; [done|].
    intros [?|Hnl]; [done|].
    by rewrite (strings_Split_single _ _ Hnl) in Hlen.
Qed.

(** X19: inside tmux [StartProject] starts the project without attaching
    and, only when that succeeded, switches the client to the session of
    the project's name; a failed start is returned as it is and nothing
    is switched.  Outside tmux it runs the plain start command and
    returns its result. *)
Theorem Tmuxinator_StartProject_commands (name : string) (fromTmux : bool)
    (w : W) :
  let r := Tmuxinator_StartProject os name fromTmux w in
  if fromTmux then
    let start := exec_Command ["tmuxinator"; "start"; name; "--no-attach"] in
    (∃ e, syscalls r = [SysRun start (Some e)] ∧ result r = Some e) ∨
    syscalls r =
      [SysRun start None;
       SysRun (exec_Command ["tmux"; "switch-client"; "-t"; name]) (result r)]
  else
    syscalls r =
      [SysRun (exec_Command ["tmuxinator"; "start"; name]) (result r)].
Proof.
  intros r. subst r. unfold_client. unfold_io. destruct fromTmux; run_os.
  all: eauto.
Qed.

End TmuxinatorFacts.

(** ** Looking a tmuxinator project up *)

Section ProjectExistsFacts.
Context {W : Type} (os : OS W).

Lemma Tmuxinator_ListProjects_fields (w : W) :
  (result (Tmuxinator_ListProjects os w)).2 = None ∧
  Forall (λ project, project ≠ "" ∧
                     Forall (λ c, isAsciiSpace c = false) (bytes project))
    (result (Tmuxinator_ListProjects os w)).1.
Proof.
  unfold_client. unfold_io. run_os.
  all: try match goal with
       | |- context [(?a <=? ?b)%nat] =>
           destruct (a <=? b)%nat eqn:Hlen; cbn
       end.
  all: split; [done|].
  all: try (by constructor).
  unfold projectsOfLines. apply Forall_flat_map, Forall_forall.
  intros line _. apply Forall_forall. intros p Hp%list_elem_of_In.
  apply filter_In in Hp as [Hp%list_elem_of_In _].
  pose proof (fieldsFrom_fields 0 line) as Hf.
  rewrite Forall_forall in Hf. by apply Hf.
Qed.

(** X23: [ProjectExists] never returns an error and makes the calls of
    one [ListProjects] and no other; it answers true exactly when the
    name is one of the listed projects.  So it answers false for the
    empty name and for any name that holds a space, a tab or a line
    break, whatever tmuxinator printed. *)
Theorem Tmuxinator_ProjectExists_listed (name : string) (w : W) :
  let r := Tmuxinator_ProjectExists os name w in
  let listing := Tmuxinator_ListProjects os w in
  syscalls r = syscalls listing ∧
  (result r).2 = None ∧
  ((result r).1 = true ↔ name ∈ (result listing).1) ∧
  (name = "" ∨ Exists (λ c, isAsciiSpace c = true) (bytes name) →
   (result r).1 = false).
Proof.
  intros r listing. subst r listing.
  destruct (Tmuxinator_ListProjects_fields w) as [Herr Hfields].
  unfold Tmuxinator_ProjectExists, io_bind, io_ret, result, syscalls in *.
  destruct (Tmuxinator_ListProjects os w) as [[[projects err] w'] calls].
  cbn in Herr, Hfields. subst err. cbn. rewrite app_nil_r.
  assert (existsb (λ project, bool_decide (project = name)) projects = true
          ↔ name ∈ projects) as Hin.
  { rewrite existsb_exists. split.
    - intros (p & Hp%list_elem_of_In & Heq). by case_bool_decide; subst.
    - intros Hp. exists name. split; [by apply list_elem_of_In|].
      by rewrite bool_decide_eq_true. }
  split_and!; [done..|].
  intros Hname. apply not_true_is_false. rewrite Hin. intros Hp.
  rewrite Forall_forall in Hfields. destruct (Hfields _ Hp) as [Hne Hsp].
  destruct Hname as [->|Hex]; [done|].
  rewrite Exists_exists in Hex. destruct Hex as (c & Hc & Hspace).
  rewrite Forall_forall in Hsp. specialize (Hsp _ Hc). congruence.
Qed.

End ProjectExistsFacts.

(** ** The manager on the program's own adapters *)

(** An answer that [reliableChecks] rules out. *)
Ltac unreliable Hexists Hlist Hconfig :=
  match goal with
  | H : TmuxClient.SessionExists _ ?n ?w = (_, Some _, _) |- _ =>
      pose proof (Hexists n w) as Hx; rewrite H in Hx; discriminate Hx
  | H : TmuxClient.ListSessions _ ?w = (_, Some _, _) |- _ =>
      pose proof (Hlist w) as Hx; rewrite H in Hx; discriminate Hx
  | H : ConfigLoader.GetSessionConfig _ ?n ?p ?w = (None, None, _) |- _ =>
      destruct (Hconfig n p w); by rewrite H
  end.

Section Reliable.
Context {W : Type} (m : Manager W) (Hm : reliableChecks m).

Lemma reliable_CreateOrSwitch (name : string) (w : W) :
  ∃ e, List.filter sideEffecting (trace (CreateOrSwitch m name w)) = [e] ∧
       last (trace (CreateOrSwitch m name w)) = Some e ∧
       outcome (CreateOrSwitch m name w) = Returned (eventError e).
Proof.
  destruct Hm as (Hexists & Hlist & Hconfig).
  unfold_manager. run_manager.
  all: first [ by eauto | unreliable Hexists Hlist Hconfig ].
Qed.

Lemma reliable_GetSessionInfo (name : string) (w : W) :
  ∃ info, outcome (GetSessionInfo m name w) = Returned (info, None).
Proof.
  destruct Hm as (Hexists & Hlist & Hconfig).
  unfold_manager. run_manager.
  all: first [ by eauto | unreliable Hexists Hlist Hconfig ].
Qed.

Lemma reliable_GoToSession (name : string) (w : W) :
  (List.filter sideEffecting (trace (GoToSession m name w)) = [] ∧
   outcome (GoToSession m name w) =
     Returned (Some (errorString ("session '" +:+ name +:+ "' not found")))) ∨
  (∃ e, List.filter sideEffecting (trace (GoToSession m name w)) = [e] ∧
        last (trace (GoToSession m name w)) = Some e ∧
        outcome (GoToSession m name w) = Returned (eventError e)).
Proof.
  destruct Hm as (Hexists & Hlist & Hconfig).
  unfold_manager. run_manager.
  all: first [ by left | by eauto | unreliable Hexists Hlist Hconfig ].
Qed.

End Reliable.

Section Wiring.
Context {W : Type} (os : OS W).

Lemma Loader_GetSessionConfig_not_nil_nil (l : Loader) (name platform : string)
    (w : W) :
  result (Loader_GetSessionConfig os l name platform w) ≠ (None, None).
Proof.
  unfold Loader_GetSessionConfig, result, io_bind, io_ret.
  destruct (Loader_LoadDefaultSessions os l platform w)
    as [[[sessions [e|]] w1] t1]; cbn; [done|].
  by destruct (find _ sessions).
Qed.

Lemma Client_SessionExists_no_error (name : string) (w : W) :
  (result (Client_SessionExists os name w)).2 = None.
Proof. unfold_client. unfold_io. by run_os. Qed.

Lemma createSessionManager_wiring (w0 : W) :
  ∃ l platform,
    result (createSessionManager os w0) =
      NewManager (Client_port os) (Tmuxinator_port os) (Loader_port os l)
        platform ∧
    (platform = "macos" ∨ platform = "wsl" ∨ platform = runtime_GOOS os).
Proof.
  unfold createSessionManager, NewLoader, detectPlatform. unfold_io. run_os.
  all: eauto 10.
Qed.

Lemma createSessionManager_reliable (w0 : W) :
  reliableChecks (result (createSessionManager os w0)).
Proof.
  destruct (createSessionManager_wiring w0) as (l & platform & -> & _).
  split_and!; simpl.
  - intros n w. apply Client_SessionExists_no_error.
  - intros w. apply Client_ListSessions_no_error.
  - intros n p w. apply Loader_GetSessionConfig_not_nil_nil.
Qed.

(** X20: on the manager that main.go wires from the tmux client, the
    tmuxinator client and the config loader, whatever the system
    answers, [CreateOrSwitch] always makes exactly one side-effecting
    call, as its last call, and returns the result of that call: it
    never fails on the live check and never dereferences a nil entry. *)
Theorem wired_CreateOrSwitch_one_effect (w0 : W) (name : string) (w : W) :
  let m := result (createSessionManager os w0) in
  ∃ e, List.filter sideEffecting (trace (CreateOrSwitch m name w)) = [e] ∧
       last (trace (CreateOrSwitch m name w)) = Some e ∧
       outcome (CreateOrSwitch m name w) = Returned (eventError e).
Proof. apply reliable_CreateOrSwitch, createSessionManager_reliable. Qed.

(** X21: on the manager that main.go wires, [GetSessionInfo] always
    returns an info string and a nil error. *)
Theorem wired_GetSessionInfo_no_error (w0 : W) (name : string) (w : W) :
  let m := result (createSessionManager os w0) in
  ∃ info, outcome (GetSessionInfo m name w) = Returned (info, None).
Proof. apply reliable_GetSessionInfo, createSessionManager_reliable. Qed.

(** X22: on the manager that main.go wires, [GoToSession] either makes no
    side-effecting call and returns "session '<name>' not found", or
    makes exactly one, as its last call, and returns its result. *)
Theorem wired_GoToSession_outcomes (w0 : W) (name : string) (w : W) :
  let m := result (createSessionManager os w0) in
  (List.filter sideEffecting (trace (GoToSession m name w)) = [] ∧
   outcome (GoToSession m name w) =
     Returned (Some (errorString ("session '" +:+ name +:+ "' not found")))) ∨
  (∃ e, List.filter sideEffecting (trace (GoToSession m name w)) = [e] ∧
        last (trace (GoToSession m name w)) = Some e ∧
        outcome (GoToSession m name w) = Returned (eventError e)).
Proof. apply reliable_GoToSession, createSessionManager_reliable. Qed.

End Wiring.
